(** * ha_kia_hyundai: the vehicle coordinator, the thermostat and the setup paths

    A shallow embedding of the Home Assistant integration
    [custom_components/ha_kia_hyundai]:

    - [vehicle_coordinator.py]: [VehicleCoordinator], its [refresh] update
      method and its read properties;
    - [climate.py]: the platform's [async_setup_entry] and [Thermostat];
    - [__init__.py]: [async_setup_entry] and [async_unload_entry];
    - [config_flow.py]: [KiaUvoConfigFlowHandler] and
      [KiaUvoOptionFlowHandler].

    Python objects are attribute maps ([gmap string PyVal]), dictionaries are
    [gmap]s, a call that may raise returns a [res], and the calls into the
    vendor library and the host are recorded as events. *)

From Stdlib Require Import ZArith String Ascii List Floats.
From stdpp Require Import base option gmap strings list fin_maps.

Local Open Scope string_scope.
Local Open Scope Z_scope.

(** ** Python values, truth testing and [int()] *)

Module Py.

(** The values the attributes of a vehicle hold: [None], [bool], [int],
    [float] (binary64), [str] (ASCII text) and [datetime] (seconds since
    the epoch). *)
Inductive PyVal : Type :=
  | PyNone
  | PyBool (b : bool)
  | PyInt (n : Z)
  | PyFloat (f : float)
  | PyStr (s : string)
  | PyDatetime (t : Z).

(** Exception classes: Python's built-in ones, the vendor library's
    ([hyundai_kia_connect_api.exceptions]; [APIError] stands for the class
    and its subclasses), the host's, and any other subclass of [Exception].
    [RuntimeError] is the class itself, without its subclass
    [NotImplementedError]. *)
Inductive ExnClass : Type :=
  | AttributeError
  | KeyError
  | TypeError
  | ValueError
  | OverflowError
  | RuntimeError
  | NotImplementedError
  | AuthenticationError
  | APIError
  | ConfigEntryAuthFailed
  | ConfigEntryError
  | ConfigEntryNotReady
  | AbortFlow
  | OtherException.

(** An exception instance: its class and [str(err)]. *)
Record PyExn : Type := Exn { exn_class : ExnClass; exn_str : string }.

#[export] Instance ExnClass_eq_dec : EqDecision ExnClass.
Proof. solve_decision. Defined.

(** [isinstance(err, cls)] *)
Definition isinstance (e : PyExn) (cls : ExnClass) : bool :=
  bool_decide (exn_class e = cls).

(** The outcome of evaluating an expression: a value or a raised exception. *)
Inductive res (A : Type) : Type :=
  | Ok (a : A)
  | Raise (e : PyExn).
Arguments Ok {A} a.
Arguments Raise {A} e.

#[export] Instance res_ret : MRet res := fun A a => Ok a.

#[export] Instance res_bind : MBind res := fun A B k m =>
  match m with
  | Ok a => k a
  | Raise e => Raise e
  end.

(** [raise cls(msg)] *)
Definition raise {A : Type} (cls : ExnClass) (msg : string) : res A :=
  Raise (Exn cls msg).

(** [try: m] / [except: h], with a bare [except]. *)
Definition try_except {A : Type} (m : res A) (h : res A) : res A :=
  match m with
  | Ok a => Ok a
  | Raise _ => h
  end.

(** Truth value testing ([if x:]). A datetime is always true; a NaN is
    true, both zeros are false. *)
Definition py_truthy (x : PyVal) : bool :=
  match x with
  | PyNone => false
  | PyBool b => b
  | PyInt n => negb (n =? 0)
  | PyFloat f => negb (PrimFloat.eqb f 0%float)
  | PyStr s => negb (String.eqb s "")
  | PyDatetime _ => true
  end.

(** [x or y] *)
Definition py_or (x y : PyVal) : PyVal := if py_truthy x then x else y.

(** *** Text. Strings are ASCII text; blanks and digits beyond ASCII are
    not modelled. *)

(** The blanks [str.strip()] removes. *)
Definition is_space (a : ascii) : bool :=
  let n := N_of_ascii a in
  ((9 <=? n) && (n <=? 13) || (28 <=? n) && (n <=? 32))%N.

Definition digit_of (a : ascii) : option Z :=
  let n := N_of_ascii a in
  if ((48 <=? n) && (n <=? 57))%N then Some (Z.of_N n - 48) else None.

Fixpoint lstrip (s : string) : string :=
  match s with
  | String a s' => if is_space a then lstrip s' else s
  | EmptyString => EmptyString
  end.

Fixpoint rstrip (s : string) : string :=
  match s with
  | String a s' =>
      match rstrip s' with
      | EmptyString => if is_space a then EmptyString else String a EmptyString
      | r => String a r
      end
  | EmptyString => EmptyString
  end.

(** [str.strip()] *)
Definition strip (s : string) : string := rstrip (lstrip s).

Definition lower_ascii (a : ascii) : ascii :=
  let n := N_of_ascii a in
  if ((65 <=? n) && (n <=? 90))%N then ascii_of_N (n + 32) else a.

(** [str.lower()] on ASCII text. *)
Fixpoint lower (s : string) : string :=
  match s with
  | String a s' => String (lower_ascii a) (lower s')
  | EmptyString => EmptyString
  end.

(** Digits after the first one: [acc] is the value read so far, [under]
    says that the previous character was an underscore. *)
Fixpoint digits_from (acc : Z) (under : bool) (s : string) : option Z :=
  match s with
  | EmptyString => if under then None else Some acc
  | String a s' =>
      match digit_of a with
      | Some d => digits_from (10 * acc + d) false s'
      | None =>
          if Ascii.eqb a "_"%char && negb under then digits_from acc true s'
          else None
      end
  end.

Definition parse_unsigned (s : string) : option Z :=
  match s with
  | String a s' =>
      match digit_of a with
      | Some d => digits_from d false s'
      | None => None
      end
  | EmptyString => None
  end.

(** The blanks [int()] skips around an ASCII literal: tab to carriage
    return, and the space. Unlike [str.strip()] it keeps 0x1c to 0x1f,
    which then make the literal invalid. *)
Definition is_int_space (a : ascii) : bool :=
  let n := N_of_ascii a in
  ((9 <=? n) && (n <=? 13) || (n =? 32))%N.

Fixpoint int_lstrip (s : string) : string :=
  match s with
  | String a s' => if is_int_space a then int_lstrip s' else s
  | EmptyString => EmptyString
  end.

Fixpoint int_rstrip (s : string) : string :=
  match s with
  | String a s' =>
      match int_rstrip s' with
      | EmptyString => if is_int_space a then EmptyString else String a EmptyString
      | r => String a r
      end
  | EmptyString => EmptyString
  end.

(** [int()] of a string: optional blanks, an optional sign, decimal digits
    with single underscores between them, optional blanks. The limit on
    the number of digits (4300 by default) is not modelled. *)
Definition parse_int (s : string) : option Z :=
  match int_rstrip (int_lstrip s) with
  | String "-"%char s' => Z.opp <$> parse_unsigned s'
  | String "+"%char s' => parse_unsigned s'
  | s' => parse_unsigned s'
  end.

(** *** [int()] of a float: truncation towards zero; an infinity raises
    [OverflowError], a NaN raises [ValueError]. *)
Definition trunc_float (f : float) : res Z :=
  match Prim2SF f with
  | S754_zero _ => Ok 0
  | S754_infinity _ => raise OverflowError "cannot convert float infinity to integer"
  | S754_nan => raise ValueError "cannot convert float NaN to integer"
  | S754_finite sign m e =>
      let mag := if (0 <=? e) then Z.shiftl (Z.pos m) e
                 else Z.shiftr (Z.pos m) (- e) in
      Ok (if sign then - mag else mag)
  end.

(** [int(x)] *)
Definition py_int (x : PyVal) : res Z :=
  match x with
  | PyNone =>
      raise TypeError
        "int() argument must be a string, a bytes-like object or a real number, not 'NoneType'"
  | PyBool b => Ok (if b then 1 else 0)
  | PyInt n => Ok n
  | PyFloat f => trunc_float f
  | PyStr s =>
      match parse_int s with
      | Some n => Ok n
      | None =>
          raise ValueError ("invalid literal for int() with base 10: '" ++ s ++ "'")
      end
  | PyDatetime _ =>
      raise TypeError
        "int() argument must be a string, a bytes-like object or a real number, not 'datetime.datetime'"
  end.

(** An attribute declared [bool = None]: a bool or [None]. *)
Definition is_opt_bool (x : PyVal) : bool :=
  match x with
  | PyNone | PyBool _ => true
  | _ => false
  end.

End Py.

Import Py.

(** ** vehicle_coordinator.py *)

Module Coordinator.

(** A [Vehicle] object of the vendor library: its attributes by name. An
    object without [__bool__] and [__len__] is true in a condition. *)
Abbreviation Vehicle := (gmap string PyVal).

(** [hasattr(obj, name)] *)
Definition hasattr (obj : Vehicle) (name : string) : bool :=
  match obj !! name with
  | Some _ => true
  | None => false
  end.

(** [obj.name] *)
Definition getattr (obj : Vehicle) (name : string) : res PyVal :=
  match obj !! name with
  | Some x => Ok x
  | None => raise AttributeError ("'Vehicle' object has no attribute '" ++ name ++ "'")
  end.

(** [d[key]] *)
Definition getitem {A : Type} (d : gmap string A) (key : string) : res A :=
  match d !! key with
  | Some x => Ok x
  | None => raise KeyError ("'" ++ key ++ "'")
  end.

(** [key in d] *)
Definition contains {A : Type} (d : gmap string A) (key : string) : bool :=
  match d !! key with
  | Some _ => true
  | None => false
  end.

(** Truth value of a dict: [len(d) != 0]. *)
Definition dict_truthy {A : Type} (d : gmap string A) : bool :=
  negb (Nat.eqb (size d) 0).

(** The coordinator: the fields [__init__] sets, the class attributes
    holding the desired state, and the two fields of the host's
    [DataUpdateCoordinator] that the update cycle writes: [data], [None]
    until an update has succeeded, and [last_update_success]. *)
Record VehicleCoordinator : Type := {
  vehicle_id : string;
  vehicle_name : PyVal;
  vehicle_model : PyVal;
  climate_desired_defrost : bool;
  climate_desired_heating_acc : bool;
  update_interval : Z;
  data : option (gmap string Vehicle);
  last_update_success : bool
}.

(** The debouncer [__init__] hands to the host: its cooldown and whether
    the first call runs at once. *)
Record Debouncer : Type := { cooldown : Z; immediate : bool }.

Section Init.

(** The host's constant, in seconds. *)
Variable REQUEST_REFRESH_DEFAULT_COOLDOWN : Z.

Definition request_refresh_debouncer : Debouncer :=
  {| cooldown := REQUEST_REFRESH_DEFAULT_COOLDOWN; immediate := false |}.

End Init.

(** [VehicleCoordinator.__init__] *)
Definition init (vehicle_id : string) (vehicle_name vehicle_model : PyVal)
    (scan_interval : Z) : VehicleCoordinator :=
  {| vehicle_id := vehicle_id;
     vehicle_name := vehicle_name;
     vehicle_model := vehicle_model;
     climate_desired_defrost := false;
     climate_desired_heating_acc := false;
     update_interval := scan_interval;
     data := None;
     last_update_success := true |}.

(** The update method [refresh]. [update] is what the vendor's
    [update_vehicle_with_cached_state(vehicle_id)] does: it raises, or it
    returns and leaves the manager's [vehicles] dict as given. An exception
    is logged and raised again. *)
Definition refresh (vehicle_id : string) (update : res (gmap string Vehicle))
    : res (gmap string Vehicle) :=
  vehicles ← update;
  match vehicles !! vehicle_id with
  | None => mret ∅
  | Some vehicle => mret {[ "vehicle" := vehicle ]}
  end.

Definition set_data (self : VehicleCoordinator)
    (d : option (gmap string Vehicle)) (ok : bool) : VehicleCoordinator :=
  {| vehicle_id := vehicle_id self;
     vehicle_name := vehicle_name self;
     vehicle_model := vehicle_model self;
     climate_desired_defrost := climate_desired_defrost self;
     climate_desired_heating_acc := climate_desired_heating_acc self;
     update_interval := update_interval self;
     data := d;
     last_update_success := ok |}.

(** One update cycle of the host's [DataUpdateCoordinator]: the result of
    the update method replaces [data]; when the update method raises,
    [data] stays and the coordinator is marked unavailable, except for a
    [NotImplementedError], which the host raises again and which leaves
    the coordinator as it is. *)
Definition async_refresh (self : VehicleCoordinator)
    (update : res (gmap string Vehicle)) : VehicleCoordinator :=
  match refresh (vehicle_id self) update with
  | Ok d => set_data self (Some d) true
  | Raise e =>
      if isinstance e NotImplementedError then self
      else set_data self (data self) false
  end.

(** The update cycles of a coordinator's life, one per outcome of the
    vendor call. *)
Definition async_refreshes (self : VehicleCoordinator)
    (updates : list (res (gmap string Vehicle))) : VehicleCoordinator :=
  fold_left async_refresh updates self.

(** Property [vehicle]. *)
Definition vehicle (self : VehicleCoordinator) : res (option Vehicle) :=
  match data self with
  | Some d =>
      if dict_truthy d && contains d "vehicle" then
        v ← getitem d "vehicle"; mret (Some v)
      else mret None
  | None => mret None
  end.

(** The body shared by the read properties:
    [if self.vehicle and hasattr(self.vehicle, F): return self.vehicle.F]
    and then [return None]. *)
Definition vehicle_attr (self : VehicleCoordinator) (F : string) : res PyVal :=
  v ← vehicle self;
  match v with
  | Some obj => if hasattr obj F then getattr obj F else mret PyNone
  | None => mret PyNone
  end.

Definition id (self : VehicleCoordinator) : string := vehicle_id self.
Definition can_remote_lock (self : VehicleCoordinator) : bool := true.
Definition doors_locked self := vehicle_attr self "door_lock".
Definition last_action_name (self : VehicleCoordinator) : res PyVal := mret PyNone.
Definition latitude self := vehicle_attr self "location_latitude".
Definition longitude self := vehicle_attr self "location_longitude".
Definition ev_battery_level self := vehicle_attr self "ev_battery_percentage".
Definition odometer_value self := vehicle_attr self "odometer".
Definition car_battery_level self := vehicle_attr self "car_battery_percentage".
Definition last_synced_to_cloud self := vehicle_attr self "last_updated_at".
Definition last_synced_from_cloud self := vehicle_attr self "last_updated_at".
Definition next_service_mile_value self := vehicle_attr self "next_service_mile".
Definition can_remote_climate (self : VehicleCoordinator) : bool := true.
Definition climate_hvac_on self := vehicle_attr self "air_control_is_on".

Definition climate_temperature_value (self : VehicleCoordinator) : res PyVal :=
  v ← vehicle self;
  match v with
  | Some obj =>
      if hasattr obj "air_temperature" then
        temp ← getattr obj "air_temperature";
        if py_truthy temp then
          try_except (n ← py_int temp; mret (PyInt n)) (mret PyNone)
        else mret PyNone
      else mret PyNone
  | None => mret PyNone
  end.

Definition climate_defrost_on self := vehicle_attr self "defrost_is_on".
Definition climate_heated_rear_window_on self := vehicle_attr self "back_window_heater_is_on".
Definition climate_heated_side_mirror_on self := vehicle_attr self "side_mirror_heater_is_on".
Definition climate_heated_steering_wheel_on self := vehicle_attr self "steering_wheel_heater_is_on".
Definition door_hood_open self := vehicle_attr self "hood_is_open".
Definition door_trunk_open self := vehicle_attr self "trunk_is_open".
Definition door_front_left_open self := vehicle_attr self "front_left_door_is_open".
Definition door_front_right_open self := vehicle_attr self "front_right_door_is_open".
Definition door_back_left_open self := vehicle_attr self "back_left_door_is_open".
Definition door_back_right_open self := vehicle_attr self "back_right_door_is_open".
Definition engine_on self := vehicle_attr self "engine_is_running".
Definition tire_all_on self := vehicle_attr self "tire_pressure_all_warning_is_on".
Definition low_fuel_light_on self := vehicle_attr self "low_fuel_light_is_on".
Definition fuel_level self := vehicle_attr self "fuel_level".
Definition ev_battery_charging self := vehicle_attr self "ev_battery_is_charging".
Definition ev_plugged_in self := vehicle_attr self "ev_battery_is_plugged_in".
Definition ev_charge_limits_ac self := vehicle_attr self "ev_charge_limits_ac".
Definition ev_charge_limits_dc self := vehicle_attr self "ev_charge_limits_dc".
Definition ev_charge_current_remaining_duration self :=
  vehicle_attr self "ev_estimated_current_charge_duration".
Definition ev_remaining_range_value self := vehicle_attr self "ev_driving_range".
Definition fuel_remaining_range_value self := vehicle_attr self "fuel_driving_range".
Definition total_remaining_range_value self := vehicle_attr self "total_driving_range".

Definition has_climate_seats (self : VehicleCoordinator) : bool := true.

(** [front_seat_options] and [rear_seat_options]: fixed dicts. *)
Definition front_seat_options (self : VehicleCoordinator) : gmap string bool :=
  {[ "heat" := true; "vent" := true ]}.
Definition rear_seat_options (self : VehicleCoordinator) : gmap string bool :=
  {[ "heat" := true ]}.

Definition climate_driver_seat (self : VehicleCoordinator) : Z * Z := (0, 1).
Definition climate_passenger_seat (self : VehicleCoordinator) : Z * Z := (0, 1).
Definition climate_left_rear_seat (self : VehicleCoordinator) : Z * Z := (0, 1).
Definition climate_right_rear_seat (self : VehicleCoordinator) : Z * Z := (0, 1).

(** The read properties that project a field of the vehicle: the
    property's name, the field it reads, the getter. *)
Definition derived_properties
    : list (string * string * (VehicleCoordinator -> res PyVal)) :=
  [ ("doors_locked", "door_lock", doors_locked);
    ("latitude", "location_latitude", latitude);
    ("longitude", "location_longitude", longitude);
    ("ev_battery_level", "ev_battery_percentage", ev_battery_level);
    ("odometer_value", "odometer", odometer_value);
    ("car_battery_level", "car_battery_percentage", car_battery_level);
    ("last_synced_to_cloud", "last_updated_at", last_synced_to_cloud);
    ("last_synced_from_cloud", "last_updated_at", last_synced_from_cloud);
    ("next_service_mile_value", "next_service_mile", next_service_mile_value);
    ("climate_hvac_on", "air_control_is_on", climate_hvac_on);
    ("climate_temperature_value", "air_temperature", climate_temperature_value);
    ("climate_defrost_on", "defrost_is_on", climate_defrost_on);
    ("climate_heated_rear_window_on", "back_window_heater_is_on",
       climate_heated_rear_window_on);
    ("climate_heated_side_mirror_on", "side_mirror_heater_is_on",
       climate_heated_side_mirror_on);
    ("climate_heated_steering_wheel_on", "steering_wheel_heater_is_on",
       climate_heated_steering_wheel_on);
    ("door_hood_open", "hood_is_open", door_hood_open);
    ("door_trunk_open", "trunk_is_open", door_trunk_open);
    ("door_front_left_open", "front_left_door_is_open", door_front_left_open);
    ("door_front_right_open", "front_right_door_is_open", door_front_right_open);
    ("door_back_left_open", "back_left_door_is_open", door_back_left_open);
    ("door_back_right_open", "back_right_door_is_open", door_back_right_open);
    ("engine_on", "engine_is_running", engine_on);
    ("tire_all_on", "tire_pressure_all_warning_is_on", tire_all_on);
    ("low_fuel_light_on", "low_fuel_light_is_on", low_fuel_light_on);
    ("fuel_level", "fuel_level", fuel_level);
    ("ev_battery_charging", "ev_battery_is_charging", ev_battery_charging);
    ("ev_plugged_in", "ev_battery_is_plugged_in", ev_plugged_in);
    ("ev_charge_limits_ac", "ev_charge_limits_ac", ev_charge_limits_ac);
    ("ev_charge_limits_dc", "ev_charge_limits_dc", ev_charge_limits_dc);
    ("ev_charge_current_remaining_duration",
       "ev_estimated_current_charge_duration",
       ev_charge_current_remaining_duration);
    ("ev_remaining_range_value", "ev_driving_range", ev_remaining_range_value);
    ("fuel_remaining_range_value", "fuel_driving_range",
       fuel_remaining_range_value);
    ("total_remaining_range_value", "total_driving_range",
       total_remaining_range_value) ].

End Coordinator.

Import Coordinator.

(** ** Calls with effects: a state, the calls made, a result *)

Module Act.

(** A coroutine of the integration: from the state it runs in to the state
    it leaves, the calls it made on the vendor library and on the host, in
    order, and its result. *)
Definition act (S Ev A : Type) : Type := S -> S * list Ev * res A.

#[export] Instance act_ret {S Ev} : MRet (act S Ev) :=
  fun A a s => (s, [], Ok a).

#[export] Instance act_bind {S Ev} : MBind (act S Ev) := fun A B k m s =>
  match m s with
  | (s1, t1, Ok a) => let '(s2, t2, r) := k a s1 in (s2, (t1 ++ t2)%list, r)
  | (s1, t1, Raise e) => (s1, t1, Raise e)
  end.

Definition get {S Ev} : act S Ev S := fun s => (s, [], Ok s).
Definition put {S Ev} (s : S) : act S Ev unit := fun _ => (s, [], Ok tt).
Definition lift {S Ev A} (r : res A) : act S Ev A := fun s => (s, [], r).
Definition throw {S Ev A} (cls : ExnClass) (msg : string) : act S Ev A :=
  lift (raise cls msg).

(** A call on a collaborator: it is recorded, and returns or raises as the
    collaborator decides. *)
Definition call {S Ev A} (ev : Ev) (outcome : res A) : act S Ev A :=
  fun s => (s, [ev], outcome).

(** [try: m] / [except Exception as err: h err] *)
Definition try_catch {S Ev A} (m : act S Ev A) (h : PyExn -> act S Ev A)
    : act S Ev A := fun s =>
  match m s with
  | (s1, t1, Ok a) => (s1, t1, Ok a)
  | (s1, t1, Raise e) => let '(s2, t2, r) := h e s1 in (s2, (t1 ++ t2)%list, r)
  end.

End Act.

Import Act.

(** ** climate.py *)

Module Climate.

(** The host's [HVACMode], a [StrEnum]. *)
Inductive HVACMode : Type :=
  | OFF | HEAT | COOL | HEAT_COOL | AUTO | DRY | FAN_ONLY.

Definition value (m : HVACMode) : string :=
  match m with
  | OFF => "off"
  | HEAT => "heat"
  | COOL => "cool"
  | HEAT_COOL => "heat_cool"
  | AUTO => "auto"
  | DRY => "dry"
  | FAN_ONLY => "fan_only"
  end.

(** The host's [ATTR_TEMPERATURE]. *)
Definition ATTR_TEMPERATURE : string := "temperature".

(** The calls the thermostat makes: on the vendor's manager, through the
    executor, and on its coordinator. *)
Inductive Call : Type :=
  | stop_climate (vehicle_id : string)
  | start_climate (vehicle_id : string) (set_temp : Z)
      (defrost climate heating : bool)
  | async_update_listeners
  | async_request_refresh.

Record Thermostat : Type := {
  coordinator : VehicleCoordinator;
  _attr_target_temperature : PyVal
}.

(** [Thermostat.__init__] *)
Definition init (coordinator : VehicleCoordinator) : res Thermostat :=
  t ← climate_temperature_value coordinator;
  n ← py_int (py_or t (PyInt 72));
  mret {| coordinator := coordinator; _attr_target_temperature := PyInt n |}.

(** The host's [ClimateEntity.target_temperature]. *)
Definition target_temperature (self : Thermostat) : PyVal :=
  _attr_target_temperature self.

(** Property [hvac_mode]. *)
Definition hvac_mode (self : Thermostat) : res HVACMode :=
  on ← climate_hvac_on (coordinator self);
  if py_truthy on then mret HEAT_COOL else mret OFF.

(** [async_set_hvac_mode]. [job] is what the vendor call run in the
    executor does. The arguments of the call are evaluated before it is
    made. *)
Definition async_set_hvac_mode (hvac_mode : string) (job : res unit)
    : act Thermostat Call unit :=
  self ← get;
  let mode := lower (strip hvac_mode) in
  (if String.eqb mode (value OFF) then
     call (stop_climate (vehicle_id (coordinator self))) job
   else if String.eqb mode (value HEAT_COOL) || String.eqb mode (value AUTO) then
     set_temp ← lift (py_int (target_temperature self));
     call (start_climate (vehicle_id (coordinator self)) set_temp
             (climate_desired_defrost (coordinator self))
             true
             (climate_desired_heating_acc (coordinator self))) job
   else mret tt);;
  call async_update_listeners (Ok tt);;
  call async_request_refresh (Ok tt).

(** [async_set_temperature], called with keyword arguments [kwargs]. *)
Definition async_set_temperature (kwargs : gmap string PyVal)
    : act Thermostat Call unit :=
  self ← get;
  put {| coordinator := coordinator self;
         _attr_target_temperature := default PyNone (kwargs !! ATTR_TEMPERATURE) |};;
  call async_update_listeners (Ok tt).

End Climate.

(** ** The account behind the vendor's [VehicleManager] *)

Module Vendor.

(** What the account does when the integration calls it: each blocking
    call returns or raises, [vehicles] is the manager's dict once the fetch
    has returned, and [update_vehicle_with_cached_state] is the refresh of
    one vehicle (see [Coordinator.refresh]). *)
Record Account : Type := {
  VehicleManager : res unit;
  check_and_refresh_token : res unit;
  update_all_vehicles_with_cached_state : res unit;
  vehicles : gmap string Vehicle;
  update_vehicle_with_cached_state : string -> res (gmap string Vehicle)
}.

Definition REGION_USA : Z := 3.
Definition BRAND_KIA : Z := 1.

(** The host's [CONF_USERNAME], [CONF_PASSWORD] and [CONF_SCAN_INTERVAL]. *)
Definition CONF_USERNAME : string := "username".
Definition CONF_PASSWORD : string := "password".
Definition CONF_SCAN_INTERVAL : string := "scan_interval".

End Vendor.

Import Vendor.

(** ** __init__.py *)

Module Setup.

(** A config entry: its credentials, its options (the scan interval, in
    minutes, as the options form stores it) and its update listeners. *)
Record ConfigEntry : Type := {
  entry_id : string;
  data : gmap string string;
  options : gmap string Z;
  update_listeners : list string
}.

(** What the host does when setup calls it once the coordinators are
    stored: the forwarding of the entry to the platforms and the
    registration of the update listener each return or raise. *)
Record Host : Type := {
  on_async_forward_entry_setups : res unit;
  on_add_update_listener : res unit
}.

(** Modelled from the spec: [services.async_setup_services], whose file is
    not among the sources. The spec counts the registration of the
    services as framework glue with no failure of its own: the call
    registers the services and returns. *)
Definition on_async_setup_services : res unit := Ok tt.

(** What [hass.data[DOMAIN]] holds for a config entry. *)
Record EntryData : Type := {
  coordinators : gmap string VehicleCoordinator;
  vehicle_manager : gmap string Vehicle
}.

(** [hass.data], by domain and then by entry id. *)
Abbreviation HassData := (gmap string (gmap string EntryData)).

(** The calls [async_setup_entry] makes. *)
Inductive Call : Type :=
  | async_setup_services
  | new_VehicleManager (region brand : Z) (username password pin : string)
  | call_check_and_refresh_token
  | call_update_all_vehicles_with_cached_state
  | new_VehicleCoordinator (vehicle_id : string) (vehicle_name vehicle_model : PyVal)
      (scan_interval : Z)
  | async_config_entry_first_refresh (vehicle_id : string)
  | async_forward_entry_setups
  | add_update_listener.

Section WithConstants.

(** [const.py]: the integration's domain and the default scan interval,
    in minutes. *)
Variable DOMAIN : string.
Variable DEFAULT_SCAN_INTERVAL : Z.

(** [hass.data.setdefault(DOMAIN, {})] *)
Definition setdefault_domain : act HassData Call unit :=
  hd ← get;
  match hd !! DOMAIN with
  | Some _ => mret tt
  | None => put (<[DOMAIN := ∅]> hd)
  end.

(** The [try] block: the manager is built, the token refreshed and the
    vehicles fetched. *)
Definition login (account : Account) (username password : string)
    : act HassData Call unit :=
  call (new_VehicleManager REGION_USA BRAND_KIA username password "")
       (VehicleManager account);;
  call call_check_and_refresh_token (check_and_refresh_token account);;
  call call_update_all_vehicles_with_cached_state
       (update_all_vehicles_with_cached_state account).

(** Its [except] clauses, in order. *)
Definition on_login_error (err : PyExn) : act HassData Call unit :=
  if isinstance err AuthenticationError then
    throw ConfigEntryAuthFailed (exn_str err)
  else if isinstance err APIError then
    throw ConfigEntryError ("API error: " ++ exn_str err)
  else
    throw ConfigEntryError ("Unexpected error: " ++ exn_str err).

(** The host's first refresh of a coordinator: the update method runs
    once; when it raises, setup is not ready, while an error of the config
    entry and a [NotImplementedError] pass through. *)
Definition first_refresh (account : Account) (coordinator : VehicleCoordinator)
    : act HassData Call VehicleCoordinator :=
  let update := update_vehicle_with_cached_state account (vehicle_id coordinator) in
  call (async_config_entry_first_refresh (vehicle_id coordinator))
    match refresh (vehicle_id coordinator) update with
    | Ok d => Ok (set_data coordinator (Some d) true)
    | Raise e =>
        if isinstance e ConfigEntryAuthFailed || isinstance e ConfigEntryError
           || isinstance e NotImplementedError
        then Raise e
        else raise ConfigEntryNotReady (exn_str e)
    end.

(** The loop over [vehicle_manager.vehicles.items()], for the items in the
    order given. *)
Fixpoint setup_coordinators (account : Account) (scan_interval : Z)
    (items : list (string * Vehicle))
    (coordinators : gmap string VehicleCoordinator)
    : act HassData Call (gmap string VehicleCoordinator) :=
  match items with
  | [] => mret coordinators
  | (vehicle_id, vehicle) :: rest =>
      name ← lift (getattr vehicle "name");
      model ← lift (getattr vehicle "model");
      coordinator ← call (new_VehicleCoordinator vehicle_id name model scan_interval)
                         (Ok (Coordinator.init vehicle_id name model scan_interval));
      coordinator ← first_refresh account coordinator;
      setup_coordinators account scan_interval rest
        (<[vehicle_id := coordinator]> coordinators)
  end.

(** [async_setup_entry]. The scan interval is kept as its number of
    minutes. The vehicles are visited in the order of the map's list, which
    need not be the order the manager's dict was filled in. Nothing undoes
    the store when a later call raises. *)
Definition async_setup_entry (host : Host) (account : Account)
    (config_entry : ConfigEntry) : act HassData Call bool :=
  setdefault_domain;;
  call async_setup_services on_async_setup_services;;
  username ← lift (getitem (data config_entry) CONF_USERNAME);
  password ← lift (getitem (data config_entry) CONF_PASSWORD);
  let scan_interval :=
    default DEFAULT_SCAN_INTERVAL (options config_entry !! CONF_SCAN_INTERVAL) in
  try_catch (login account username password) on_login_error;;
  (if dict_truthy (vehicles account) then mret tt
   else throw ConfigEntryError "No vehicles found in account");;
  coordinators ← setup_coordinators account scan_interval
                   (map_to_list (vehicles account)) ∅;
  hd ← get;
  entries ← lift (getitem hd DOMAIN);
  put (<[DOMAIN := <[entry_id config_entry :=
                       {| coordinators := coordinators;
                          vehicle_manager := vehicles account |}]> entries]> hd);;
  call async_forward_entry_setups (on_async_forward_entry_setups host);;
  (match update_listeners config_entry with
   | [] => call add_update_listener (on_add_update_listener host)
   | _ => mret tt
   end);;
  mret true.

End WithConstants.

End Setup.

(** ** config_flow.py *)

Module ConfigFlow.

(** The host's [SOURCE_REAUTH]. *)
Definition SOURCE_REAUTH : string := "reauth".

(** What a step of the flow returns to the host. *)
Inductive FlowResult : Type :=
  | async_show_form (step_id : string) (errors : gmap string string)
  | async_create_entry (title : string) (data : gmap string string)
  | async_abort (reason : string)
  | async_update_reload_and_abort (data_updates : gmap string string).

(** The flow handler: its [data], its manager (the manager's [vehicles],
    [None] until one has been built) and the flow's [source]. *)
Record KiaUvoConfigFlowHandler : Type := {
  data : gmap string string;
  vehicle_manager : option (gmap string Vehicle);
  source : string
}.

Definition set_vehicle_manager (self : KiaUvoConfigFlowHandler)
    (vm : gmap string Vehicle) : KiaUvoConfigFlowHandler :=
  {| data := data self; vehicle_manager := Some vm; source := source self |}.

Definition set_flow_data (self : KiaUvoConfigFlowHandler)
    (d : gmap string string) : KiaUvoConfigFlowHandler :=
  {| data := d; vehicle_manager := vehicle_manager self; source := source self |}.

(** [async_step_create_entries]. [configured] holds the unique ids of the
    entries the host already has; [_abort_if_unique_id_configured] raises
    [AbortFlow] on one of them. [next(iter(...))] on a manager without a
    vehicle raises [StopIteration], which leaves the coroutine as a
    [RuntimeError]. The flow makes no recorded call. *)
Definition async_step_create_entries (configured : gset string)
    : act KiaUvoConfigFlowHandler Empty_set FlowResult :=
  self ← get;
  match vehicle_manager self with
  | None => mret (async_abort "unknown")
  | Some vehicles =>
      if String.eqb (source self) SOURCE_REAUTH then
        mret (async_update_reload_and_abort (data self))
      else
        (if dict_truthy vehicles then mret tt
         else throw RuntimeError "coroutine raised StopIteration");;
        username ← lift (getitem (data self) CONF_USERNAME);
        let account_name := "Kia USA Account (" ++ username ++ ")" in
        if bool_decide ("kia_usa_" ++ username ∈ configured) then
          throw AbortFlow "already_configured"
        else
          mret (async_create_entry account_name (data self))
  end.

(** The [try] block of [async_step_user]; [errors] is the dict the clauses
    write to, and the result is the early [return], if taken. *)
Definition try_login (account : Account) (configured : gset string)
    (user_input : gmap string string)
    : act KiaUvoConfigFlowHandler Empty_set (gmap string string * option FlowResult) :=
  lift (VehicleManager account);;
  self ← get;
  put (set_vehicle_manager self ∅);;
  lift (check_and_refresh_token account);;
  lift (update_all_vehicles_with_cached_state account);;
  self ← get;
  put (set_vehicle_manager self (vehicles account));;
  if dict_truthy (vehicles account) then
    self ← get;
    put (set_flow_data self user_input);;
    r ← async_step_create_entries configured;
    mret (∅, Some r)
  else
    mret ({[ "base" := "no_vehicles" ]}, None).

(** Its [except] clauses, in order. *)
Definition on_login_error (err : PyExn)
    : act KiaUvoConfigFlowHandler Empty_set (gmap string string * option FlowResult) :=
  if isinstance err AuthenticationError then
    mret ({[ "base" := "invalid_auth" ]}, None)
  else if isinstance err APIError then
    mret ({[ "base" := "cannot_connect" ]}, None)
  else
    mret ({[ "base" := "unknown" ]}, None).

(** [async_step_user] *)
Definition async_step_user (account : Account) (configured : gset string)
    (user_input : option (gmap string string))
    : act KiaUvoConfigFlowHandler Empty_set FlowResult :=
  match user_input with
  | Some user_input =>
      username ← lift (getitem user_input CONF_USERNAME);
      password ← lift (getitem user_input CONF_PASSWORD);
      '(errors, returned) ← try_catch (try_login account configured user_input)
                                      on_login_error;
      match returned with
      | Some r => mret r
      | None => mret (async_show_form "user" errors)
      end
  | None => mret (async_show_form "user" ∅)
  end.

(** [async_step_reauth] *)
Definition async_step_reauth (account : Account) (configured : gset string)
    (user_input : option (gmap string string))
    : act KiaUvoConfigFlowHandler Empty_set FlowResult :=
  async_step_user account configured user_input.

End ConfigFlow.

(** ** __init__.py: unloading an entry *)

Module Teardown.

(** The calls [async_unload_entry] makes on the host. *)
Inductive Call : Type :=
  | async_unload_platforms
  | async_unload_services.

Section WithConstants.

Variable DOMAIN : string.

(** [async_unload_entry]. [platforms] is what the host's
    [async_unload_platforms] does. The entry is popped from
    [hass.data[DOMAIN]] with a default, so a missing entry is no error; a
    missing domain is a [KeyError]. *)
Definition async_unload_entry (platforms : res bool)
    (config_entry : Setup.ConfigEntry) : act Setup.HassData Call bool :=
  unload_ok ← call async_unload_platforms platforms;
  (if unload_ok : bool then
     hd ← get;
     entries ← lift (getitem hd DOMAIN);
     put (<[DOMAIN := delete (Setup.entry_id config_entry) entries]> hd)
   else mret tt);;
  hd ← get;
  entries ← lift (getitem hd DOMAIN);
  (if dict_truthy entries then mret tt
   else call async_unload_services (Ok tt));;
  mret unload_ok.

End WithConstants.

End Teardown.

(** ** climate.py: the platform's setup *)

Module ClimatePlatform.

(** The call on the host's [AddEntitiesCallback]. *)
Inductive Call : Type :=
  | async_add_entities (entities : list Climate.Thermostat).

(** The loop over [coordinators.values()]: a thermostat is appended for
    every coordinator that can start the climate remotely. *)
Fixpoint make_entities (coordinators : list VehicleCoordinator)
    (entities : list Climate.Thermostat) : res (list Climate.Thermostat) :=
  match coordinators with
  | [] => mret entities
  | coordinator :: rest =>
      if can_remote_climate coordinator then
        t ← Climate.init coordinator;
        make_entities rest (entities ++ [t])
      else make_entities rest entities
  end.

Section WithConstants.

Variable DOMAIN : string.

(** [async_setup_entry] of the climate platform. The coordinators are
    visited in the order of the map's list. *)
Definition async_setup_entry (config_entry : Setup.ConfigEntry)
    : act Setup.HassData Call unit :=
  hd ← get;
  entries ← lift (getitem hd DOMAIN);
  entry_data ← lift (getitem entries (Setup.entry_id config_entry));
  entities ← lift (make_entities
                     (snd <$> map_to_list (Setup.coordinators entry_data)) []);
  match entities with
  | [] => mret tt
  | _ => call (async_add_entities entities) (Ok tt)
  end.

End WithConstants.

End ClimatePlatform.

(** ** config_flow.py: the options flow *)

Module OptionsFlow.

(** What the step of the options flow returns to the host: the entry that
    carries the options, or the form, whose scan interval field shows a
    default. *)
Inductive FlowResult : Type :=
  | async_create_entry (title : string) (data : gmap string Z)
  | async_show_form (step_id : string) (scan_interval_default : Z).

(** [vol.Coerce(int)]: [int()], whose [ValueError] and [TypeError] become
    an invalid value. *)
Definition Coerce_int (v : PyVal) : res Z :=
  match py_int v with
  | Ok n => Ok n
  | Raise e =>
      if isinstance e ValueError || isinstance e TypeError
      then raise OtherException "expected int"
      else Raise e
  end.

(** [vol.Range(min=1, max=999)] *)
Definition Range_1_999 (n : Z) : res Z :=
  if n <? 1 then raise OtherException "value must be at least 1"
  else if 999 <? n then raise OtherException "value must be at most 999"
  else Ok n.

(** [vol.All(vol.Coerce(int), vol.Range(min=1, max=999))], the validator
    of the scan interval. *)
Definition validate_scan_interval (v : PyVal) : res Z :=
  n ← Coerce_int v; Range_1_999 n.

Section WithConstants.

Variable DEFAULT_SCAN_INTERVAL : Z.

(** The default the schema of [__init__] gives the field. *)
Definition schema_default (config_entry : Setup.ConfigEntry) : Z :=
  default DEFAULT_SCAN_INTERVAL (Setup.options config_entry !! CONF_SCAN_INTERVAL).

(** [async_step_init] *)
Definition async_step_init (config_entry : Setup.ConfigEntry)
    (user_input : option (gmap string Z)) : FlowResult :=
  match user_input with
  | Some user_input => async_create_entry "" user_input
  | None => async_show_form "init" (schema_default config_entry)
  end.

End WithConstants.

End OptionsFlow.

(** ** Vocabulary of the statements *)

(** The snapshot a coordinator holds: the vehicle under the key
    ["vehicle"] of its data, if any. *)
Definition snapshot (self : VehicleCoordinator) : option Vehicle :=
  d ← Coordinator.data self; d !! "vehicle".

(** The field [F] of the snapshot, if there is a snapshot and it has the
    field. *)
Definition field (self : VehicleCoordinator) (F : string) : option PyVal :=
  v ← snapshot self; v !! F.

(** What [climate_temperature_value] makes of the field's value. *)
Definition coerced (temp : PyVal) : PyVal :=
  if py_truthy temp then
    match py_int temp with
    | Ok n => PyInt n
    | Raise _ => PyNone
    end
  else PyNone.

(** The first exception among the three calls of a login, if any. *)
Definition first_error (account : Account) : res unit :=
  VehicleManager account;;
  check_and_refresh_token account;;
  update_all_vehicles_with_cached_state account.

(** A call that constructs a coordinator. *)
Definition constructs_coordinator (c : Setup.Call) : bool :=
  match c with
  | Setup.new_VehicleCoordinator _ _ _ _ => true
  | _ => false
  end.

(** A coordinator after a first refresh that found the vehicle. *)
Definition ready (vehicle_id : string) (v : Vehicle) : VehicleCoordinator :=
  async_refresh (Coordinator.init vehicle_id (PyStr "EV6") (PyStr "EV6") 10)
    (Ok {[ vehicle_id := v ]}).

(** The target temperature a new thermostat starts with. *)
Definition initial_target (self : VehicleCoordinator) : Z :=
  match coerced <$> field self "air_temperature" with
  | Some (PyInt n) => if n =? 0 then 72 else n
  | _ => 72
  end.

(** The thermostat [Thermostat.__init__] builds for a coordinator. *)
Definition thermostat_of (self : VehicleCoordinator) : Climate.Thermostat :=
  {| Climate.coordinator := self;
     Climate._attr_target_temperature := PyInt (initial_target self) |}.

(** The call that starts the climate of a thermostat at [set_temp]. *)
Definition start_call (self : Climate.Thermostat) (set_temp : Z) : Climate.Call :=
  Climate.start_climate (vehicle_id (Climate.coordinator self)) set_temp
    (climate_desired_defrost (Climate.coordinator self)) true
    (climate_desired_heating_acc (Climate.coordinator self)).

(** What follows a vendor call that returned, or raised. *)
Definition after_job (job : res unit) : list Climate.Call :=
  match job with
  | Ok _ => [Climate.async_update_listeners; Climate.async_request_refresh]
  | Raise _ => []
  end.


(** The coordinator [async_setup_entry] stores for the vehicle [v] under
    [vehicle_id]: constructed from the vehicle's name and model, and
    refreshed once. *)
Definition first_refreshed (account : Account) (scan_interval : Z)
    (vehicle_id : string) (v : Vehicle) (c : VehicleCoordinator) : Prop :=
  exists name model d,
    v !! "name" = Some name /\ v !! "model" = Some model /\
    refresh vehicle_id (update_vehicle_with_cached_state account vehicle_id) = Ok d /\
    c = set_data (Coordinator.init vehicle_id name model scan_interval) (Some d) true.

(** The two calls the setup loop makes for a vehicle. *)
Definition coordinator_calls (scan_interval : Z) (item : string * Vehicle)
    : list Setup.Call :=
  [ Setup.new_VehicleCoordinator item.1 (default PyNone (item.2 !! "name"))
      (default PyNone (item.2 !! "model")) scan_interval;
    Setup.async_config_entry_first_refresh item.1 ].

(** The three calls of a login. *)
Definition login_calls (username password : string) : list Setup.Call :=
  [ Setup.new_VehicleManager REGION_USA BRAND_KIA username password "";
    Setup.call_check_and_refresh_token;
    Setup.call_update_all_vehicles_with_cached_state ].

(** What the first refresh raises when the update method raised [e]. *)
Definition first_refresh_error (e : PyExn) : PyExn :=
  if isinstance e ConfigEntryAuthFailed || isinstance e ConfigEntryError
     || isinstance e NotImplementedError
  then e else Exn ConfigEntryNotReady (exn_str e).

(** The end of a setup, once the entry is stored: the calls made on the
    host and the result. *)
Definition after_store (host : Setup.Host) (config_entry : Setup.ConfigEntry)
    : list Setup.Call * res bool :=
  match Setup.on_async_forward_entry_setups host with
  | Raise e => ([Setup.async_forward_entry_setups], Raise e)
  | Ok _ =>
      match Setup.update_listeners config_entry with
      | [] =>
          ([Setup.async_forward_entry_setups; Setup.add_update_listener],
           match Setup.on_add_update_listener host with
           | Ok _ => Ok true
           | Raise e => Raise e
           end)
      | _ => ([Setup.async_forward_entry_setups], Ok true)
      end
  end.

(** The scan interval of an entry: its option, or the default. *)
Definition scan_interval_of (DEFAULT_SCAN_INTERVAL : Z)
    (config_entry : Setup.ConfigEntry) : Z :=
  default DEFAULT_SCAN_INTERVAL (Setup.options config_entry !! CONF_SCAN_INTERVAL).

(** The title and the unique id of the account's entry. *)
Definition account_title (username : string) : string :=
  "Kia USA Account (" ++ username ++ ")".
Definition account_unique_id (username : string) : string :=
  "kia_usa_" ++ username.

(** The form of the user step with one error under ["base"]. *)
Definition user_form (error : string) : ConfigFlow.FlowResult :=
  ConfigFlow.async_show_form "user" {[ "base" := error ]}.

(** The flow handler once a login has succeeded and found vehicles. *)
Definition logged_in (self : ConfigFlow.KiaUvoConfigFlowHandler)
    (account : Account) (user_input : gmap string string)
    : ConfigFlow.KiaUvoConfigFlowHandler :=
  {| ConfigFlow.data := user_input;
     ConfigFlow.vehicle_manager := Some (vehicles account);
     ConfigFlow.source := ConfigFlow.source self |}.

(** ** Sample accounts and entries *)

(** A host whose calls return. *)
Definition quiet_host : Setup.Host :=
  {| Setup.on_async_forward_entry_setups := Ok tt;
     Setup.on_add_update_listener := Ok tt |}.

(** An account whose token refresh is refused. *)
Definition refused_account : Account :=
  {| VehicleManager := Ok tt;
     check_and_refresh_token := raise AuthenticationError "Login failed";
     update_all_vehicles_with_cached_state := Ok tt;
     vehicles := ∅;
     update_vehicle_with_cached_state := fun _ => Ok ∅ |}.

(** An account that logs in and has no vehicle. *)
Definition empty_account : Account :=
  {| VehicleManager := Ok tt;
     check_and_refresh_token := Ok tt;
     update_all_vehicles_with_cached_state := Ok tt;
     vehicles := ∅;
     update_vehicle_with_cached_state := fun _ => Ok ∅ |}.

Definition credentials : gmap string string :=
  {[ CONF_USERNAME := "driver@example.com"; CONF_PASSWORD := "hunter2" ]}.

Definition entry : Setup.ConfigEntry :=
  {| Setup.entry_id := "01J8";
     Setup.data := credentials;
     Setup.options := ∅;
     Setup.update_listeners := [] |}.

(** A flow handler as the host creates it. *)
Definition new_flow : ConfigFlow.KiaUvoConfigFlowHandler :=
  {| ConfigFlow.data := ∅;
     ConfigFlow.vehicle_manager := None;
     ConfigFlow.source := "user" |}.

(** An account with one vehicle, and the vehicle. *)
Definition ev6 : Vehicle :=
  {[ "name" := PyStr "EV6"; "model" := PyStr "EV6";
     "door_lock" := PyBool true; "air_control_is_on" := PyBool false;
     "air_temperature" := PyStr "72" ]}.

Definition one_vehicle_account : Account :=
  {| VehicleManager := Ok tt;
     check_and_refresh_token := Ok tt;
     update_all_vehicles_with_cached_state := Ok tt;
     vehicles := {[ "KNDC3DLC5N5000001" := ev6 ]};
     update_vehicle_with_cached_state :=
       fun _ => Ok {[ "KNDC3DLC5N5000001" := ev6 ]} |}.

(** An account with two vehicles. *)
Definition two_vehicle_account : Account :=
  {| VehicleManager := Ok tt;
     check_and_refresh_token := Ok tt;
     update_all_vehicles_with_cached_state := Ok tt;
     vehicles := {[ "KNDC3DLC5N5000001" := ev6; "5XYP3DHC9NG000002" := ev6 ]};
     update_vehicle_with_cached_state :=
       fun _ => Ok {[ "KNDC3DLC5N5000001" := ev6; "5XYP3DHC9NG000002" := ev6 ]} |}.

(** An account whose only vehicle cannot be refreshed. *)
Definition stalled_account : Account :=
  {| VehicleManager := Ok tt;
     check_and_refresh_token := Ok tt;
     update_all_vehicles_with_cached_state := Ok tt;
     vehicles := {[ "KNDC3DLC5N5000001" := ev6 ]};
     update_vehicle_with_cached_state := fun _ => raise APIError "timeout" |}.

(** * Properties *)

(** ** Python values *)

Example int_of_digits : py_int (PyStr "72") = Ok 72.
Proof. reflexivity. Qed.

Example int_of_padded : py_int (PyStr " -1_000 ") = Ok (-1000).
Proof. reflexivity. Qed.

Example int_of_word : py_int (PyStr "LOW") =
  raise ValueError "invalid literal for int() with base 10: 'LOW'".
Proof. reflexivity. Qed.

Example int_of_double_underscore : parse_int "1__0" = None.
Proof. reflexivity. Qed.

Example int_of_float : py_int (PyFloat 72.5%float) = Ok 72.
Proof. vm_compute. reflexivity. Qed.

Example int_of_negative_float : py_int (PyFloat (-72.5)%float) = Ok (-72).
Proof. vm_compute. reflexivity. Qed.

Example truthy_nan : py_truthy (PyFloat nan) = true.
Proof. reflexivity. Qed.

Example truthy_negative_zero : py_truthy (PyFloat (-0)%float) = false.
Proof. reflexivity. Qed.

Lemma is_opt_bool_truthy (x : PyVal) :
  is_opt_bool x = true -> (py_truthy x = true <-> x = PyBool true).
Proof.
  destruct x as [|b| | | |]; simpl; try discriminate; intros _.
  - split; discriminate.
  - split; [intros ->; reflexivity | intros [= ->]; reflexivity].
Qed.

(** ** The snapshot and the read properties *)

Section Getters.

Variable self : VehicleCoordinator.

Lemma dict_truthy_lookup {A : Type} (d : gmap string A) (k : string) (x : A) :
  d !! k = Some x -> dict_truthy d = true.
Proof.
  intros Hk. unfold dict_truthy.
  destruct (size d) eqn:Hs; [|reflexivity].
  apply map_size_empty_iff in Hs. subst d. rewrite lookup_empty in Hk.
  discriminate.
Qed.

(** The property [vehicle] never raises and yields the snapshot. *)
Lemma vehicle_snapshot : vehicle self = Ok (snapshot self).
Proof.
  unfold vehicle, snapshot. destruct (Coordinator.data self) as [d|]; simpl; [|reflexivity].
  unfold contains, getitem. destruct (d !! "vehicle") as [v|] eqn:Hv.
  - rewrite (dict_truthy_lookup d _ v Hv). reflexivity.
  - rewrite andb_false_r. reflexivity.
Qed.

(** A plain projection never raises: it yields the field, or [None]. *)
Lemma vehicle_attr_field (F : string) :
  vehicle_attr self F = Ok (default PyNone (field self F)).
Proof.
  unfold vehicle_attr, field. rewrite vehicle_snapshot. simpl.
  destruct (snapshot self) as [v|]; simpl; [|reflexivity].
  unfold hasattr, getattr. destruct (v !! F); reflexivity.
Qed.

Lemma climate_temperature_value_field :
  climate_temperature_value self =
  Ok (default PyNone (coerced <$> field self "air_temperature")).
Proof.
  unfold climate_temperature_value, field. rewrite vehicle_snapshot. simpl.
  destruct (snapshot self) as [v|]; simpl; [|reflexivity].
  unfold hasattr, getattr, coerced.
  destruct (v !! "air_temperature") as [temp|]; simpl; [|reflexivity].
  destruct (py_truthy temp); [|reflexivity].
  destruct (py_int temp); reflexivity.
Qed.

End Getters.

(** Without data, or with an empty data dict, no field is there. *)
Lemma field_absent (self : VehicleCoordinator) (F : string) :
  Coordinator.data self = None \/ Coordinator.data self = Some ∅ \/
  field self F = None ->
  field self F = None.
Proof.
  unfold field, snapshot. intros [-> | [-> | H]]; [reflexivity | reflexivity | exact H].
Qed.

(** Every entry of the table but [climate_temperature_value] is a plain
    projection of its field. *)
Lemma derived_properties_plain name F getter :
  In (name, F, getter) derived_properties ->
  name <> "climate_temperature_value" ->
  getter = fun self => vehicle_attr self F.
Proof.
  intros Hin Hname. simpl in Hin.
  repeat (destruct Hin as [[= <- <- <-] | Hin];
          [first [reflexivity | exfalso; apply Hname; reflexivity] |]).
  destruct Hin.
Qed.

Lemma derived_properties_temperature name F getter :
  In (name, F, getter) derived_properties ->
  name = "climate_temperature_value" ->
  F = "air_temperature" /\ getter = climate_temperature_value.
Proof.
  intros Hin Hname. simpl in Hin.
  repeat (destruct Hin as [[= <- <- <-] | Hin];
          [first [discriminate Hname | split; reflexivity] |]).
  destruct Hin.
Qed.

(** A snapshot whose target temperature is the string ["72"]. *)
Example temperature_of_string :
  climate_temperature_value (ready "KNDC3DLC5N5000001" {[ "air_temperature" := PyStr "72" ]})
  = Ok (PyInt 72).
Proof. vm_compute. reflexivity. Qed.

(** C1, as stated, fails: [climate_temperature_value] is one of the read
    properties, and on a snapshot whose [air_temperature] is the string
    ["72"] it returns the integer [72], not the field's value. *)
Lemma C1_counterexample :
  let self := ready "KNDC3DLC5N5000001" {[ "air_temperature" := PyStr "72" ]} in
  In ("climate_temperature_value", "air_temperature", climate_temperature_value)
     derived_properties /\
  field self "air_temperature" = Some (PyStr "72") /\
  climate_temperature_value self <> Ok (PyStr "72").
Proof.
  split; [|split].
  - simpl. do 10 right. left. reflexivity.
  - vm_compute. reflexivity.
  - vm_compute. discriminate.
Qed.

(** C1 (amended). For every read property that projects a field of the
    vehicle: when there is no snapshot (the data is [None], empty, or has no
    vehicle) or the snapshot lacks the field, the getter returns [None]
    without raising; when the snapshot has the field, the getter returns
    exactly the field's value, except [climate_temperature_value], which
    returns the value converted by [int()], or [None] when the value is
    false or does not convert. *)
Theorem C1_read_properties name F getter (self : VehicleCoordinator) :
  In (name, F, getter) derived_properties ->
  (Coordinator.data self = None \/ Coordinator.data self = Some ∅ \/
   field self F = None -> getter self = Ok PyNone) /\
  (forall x, field self F = Some x ->
     name <> "climate_temperature_value" -> getter self = Ok x) /\
  (forall x, field self F = Some x ->
     name = "climate_temperature_value" -> getter self = Ok (coerced x)).
Proof.
  intros Hin.
  destruct (decide (name = "climate_temperature_value")) as [Heq | Hne].
  - destruct (derived_properties_temperature _ _ _ Hin Heq) as [-> ->].
    rewrite climate_temperature_value_field.
    split; [|split].
    + intros H. rewrite (field_absent _ _ H). reflexivity.
    + intros x _ Hne. contradiction.
    + intros x -> _. reflexivity.
  - rewrite (derived_properties_plain _ _ _ Hin Hne).
    rewrite vehicle_attr_field.
    split; [|split].
    + intros H. rewrite (field_absent _ _ H). reflexivity.
    + intros x -> _. reflexivity.
    + intros x _ Heq. contradiction.
Qed.

(** C1 at work: [doors_locked] before any refresh, on an empty data dict,
    on a snapshot without the field, and on a snapshot with it. *)
Lemma C1_read_properties_witness :
  doors_locked (Coordinator.init "KNDC3DLC5N5000001" (PyStr "EV6") (PyStr "EV6") 10)
    = Ok PyNone /\
  doors_locked (ready "KNDC3DLC5N5000001" {[ "door_lock" := PyBool true ]})
    = Ok (PyBool true).
Proof.
  split.
  - refine (proj1 (C1_read_properties "doors_locked" "door_lock" doors_locked _ _) _).
    + simpl. left. reflexivity.
    + left. reflexivity.
  - refine (proj1 (proj2 (C1_read_properties "doors_locked" "door_lock"
                            doors_locked _ _)) _ _ _).
    + simpl. left. reflexivity.
    + vm_compute. reflexivity.
    + discriminate.
Defined.

(** C6, as stated, fails: the integer [0] converts to an integer, yet on a
    snapshot whose [air_temperature] is [0] the getter returns [None]: the
    test [if temp:] takes a false value for a missing one. *)
Lemma C6_counterexample :
  let self := ready "KNDC3DLC5N5000001" {[ "air_temperature" := PyInt 0 ]} in
  field self "air_temperature" = Some (PyInt 0) /\
  py_int (PyInt 0) = Ok 0 /\
  climate_temperature_value self = Ok PyNone /\
  climate_temperature_value self <> Ok (PyInt 0).
Proof.
  split; [|split; [|split]]; try (vm_compute; reflexivity).
  vm_compute. discriminate.
Qed.

(** C6 (amended). [climate_temperature_value] only converts the snapshot's
    [air_temperature]: when the value is true and [int()] accepts it, the
    getter returns that integer; when [int()] raises, when the value is
    false ([None], [0], [0.0], [False], the empty string), when the field
    is missing and when there is no snapshot, it returns [None]. It never
    raises. *)
Theorem C6_temperature_coercion (self : VehicleCoordinator) :
  (forall temp n,
     field self "air_temperature" = Some temp ->
     py_truthy temp = true -> py_int temp = Ok n ->
     climate_temperature_value self = Ok (PyInt n)) /\
  (forall temp e,
     field self "air_temperature" = Some temp -> py_int temp = Raise e ->
     climate_temperature_value self = Ok PyNone) /\
  (forall temp,
     field self "air_temperature" = Some temp -> py_truthy temp = false ->
     climate_temperature_value self = Ok PyNone) /\
  (field self "air_temperature" = None ->
     climate_temperature_value self = Ok PyNone).
Proof.
  rewrite climate_temperature_value_field. unfold coerced.
  repeat split.
  - intros temp n -> Ht Hn. simpl. rewrite Ht, Hn. reflexivity.
  - intros temp e -> He. simpl. rewrite He. destruct (py_truthy temp); reflexivity.
  - intros temp -> Ht. simpl. rewrite Ht. reflexivity.
  - intros ->. reflexivity.
Qed.

(** C6 at work: the strings ["72"] and ["LOW"], and an unset field. *)
Lemma C6_temperature_coercion_witness :
  climate_temperature_value
    (ready "KNDC3DLC5N5000001" {[ "air_temperature" := PyStr "72" ]}) = Ok (PyInt 72) /\
  climate_temperature_value
    (ready "KNDC3DLC5N5000001" {[ "air_temperature" := PyStr "LOW" ]}) = Ok PyNone /\
  climate_temperature_value
    (ready "KNDC3DLC5N5000001" {[ "air_temperature" := PyNone ]}) = Ok PyNone /\
  climate_temperature_value
    (ready "KNDC3DLC5N5000001" {[ "door_lock" := PyBool true ]}) = Ok PyNone.
Proof.
  split; [|split; [|split]].
  - refine (proj1 (C6_temperature_coercion _) (PyStr "72") 72 _ _ _);
      vm_compute; reflexivity.
  - refine (proj1 (proj2 (C6_temperature_coercion _)) (PyStr "LOW") _ _ _);
      vm_compute; reflexivity.
  - refine (proj1 (proj2 (proj2 (C6_temperature_coercion _))) PyNone _ _);
      vm_compute; reflexivity.
  - refine (proj2 (proj2 (proj2 (C6_temperature_coercion _))) _).
    vm_compute. reflexivity.
Defined.

(** C8. In every state of the coordinator the four seat properties return
    the fixed pair [(0, 1)]. *)
Theorem C8_seat_placeholder (self : VehicleCoordinator) :
  climate_driver_seat self = (0, 1) /\
  climate_passenger_seat self = (0, 1) /\
  climate_left_rear_seat self = (0, 1) /\
  climate_right_rear_seat self = (0, 1).
Proof. repeat split. Qed.

(** C9. In every state of the coordinator [last_synced_to_cloud] and
    [last_synced_from_cloud] return the same value, the snapshot's
    [last_updated_at] or [None]. *)
Theorem C9_sync_timestamps_coincide (self : VehicleCoordinator) :
  last_synced_to_cloud self = last_synced_from_cloud self /\
  last_synced_to_cloud self = Ok (default PyNone (field self "last_updated_at")).
Proof.
  split; [reflexivity|]. unfold last_synced_to_cloud. apply vehicle_attr_field.
Qed.

(** ** The thermostat *)

Lemma hvac_mode_field (self : Climate.Thermostat) :
  Climate.hvac_mode self =
  Ok (if py_truthy (default PyNone (field (Climate.coordinator self) "air_control_is_on"))
      then Climate.HEAT_COOL else Climate.OFF).
Proof.
  unfold Climate.hvac_mode, climate_hvac_on. rewrite vehicle_attr_field. simpl.
  destruct (py_truthy _); reflexivity.
Qed.

(** C10. Whenever [climate_hvac_on] is not true, the exposed mode is OFF:
    for a value that tests false, for a bool-or-None value other than
    [True], and before any snapshot exists, where [climate_hvac_on] is
    [None]. *)
Theorem C10_hvac_off_unless_on (self : Climate.Thermostat) :
  (forall on, climate_hvac_on (Climate.coordinator self) = Ok on ->
     py_truthy on = false -> Climate.hvac_mode self = Ok Climate.OFF) /\
  (forall on, climate_hvac_on (Climate.coordinator self) = Ok on ->
     is_opt_bool on = true -> on <> PyBool true ->
     Climate.hvac_mode self = Ok Climate.OFF) /\
  (Coordinator.data (Climate.coordinator self) = None ->
     climate_hvac_on (Climate.coordinator self) = Ok PyNone /\
     Climate.hvac_mode self = Ok Climate.OFF).
Proof.
  rewrite hvac_mode_field. unfold climate_hvac_on. rewrite vehicle_attr_field.
  split; [|split].
  - intros on [= ->] Hf. rewrite Hf. reflexivity.
  - intros on [= ->] Hb Hne.
    destruct (py_truthy _) eqn:Ht; [|reflexivity].
    apply is_opt_bool_truthy in Ht; [contradiction | assumption].
  - intros Hd. unfold field, snapshot. rewrite Hd. split; reflexivity.
Qed.

(** C10 at work: a snapshot that reports the air control off, and a
    coordinator that has not been refreshed. *)
Lemma C10_hvac_off_unless_on_witness :
  Climate.hvac_mode
    {| Climate.coordinator :=
         ready "KNDC3DLC5N5000001" {[ "air_control_is_on" := PyBool false ]};
       Climate._attr_target_temperature := PyInt 72 |} = Ok Climate.OFF /\
  Climate.hvac_mode
    {| Climate.coordinator :=
         Coordinator.init "KNDC3DLC5N5000001" (PyStr "EV6") (PyStr "EV6") 10;
       Climate._attr_target_temperature := PyInt 72 |} = Ok Climate.OFF.
Proof.
  split.
  - refine (proj1 (C10_hvac_off_unless_on _) (PyBool false) _ _);
      vm_compute; reflexivity.
  - refine (proj2 (proj2 (proj2 (C10_hvac_off_unless_on _)) _)).
    reflexivity.
Defined.

(** The mode is normalised before it is matched. *)
Example set_hvac_mode_normalises :
  lower (strip "  Heat_Cool ") = Climate.value Climate.HEAT_COOL.
Proof. reflexivity. Qed.







(** ** The update cycle *)

Lemma async_refresh_vehicle_id self update :
  vehicle_id (async_refresh self update) = vehicle_id self.
Proof.
  unfold async_refresh. destruct (refresh _ _) as [d|e]; [reflexivity|].
  destruct (isinstance e NotImplementedError); reflexivity.
Qed.

(** An update that raises leaves the data as it is. *)
Lemma async_refresh_raise self e :
  Coordinator.data (async_refresh self (Raise e)) = Coordinator.data self.
Proof.
  unfold async_refresh. simpl.
  destruct (isinstance e NotImplementedError); reflexivity.
Qed.

(** An update that returns replaces the data: by a dict holding the
    vehicle, or by the empty dict when the manager lacks the vehicle. *)
Lemma async_refresh_ok self vehicles :
  Coordinator.data (async_refresh self (Ok vehicles)) =
  Some match vehicles !! vehicle_id self with
       | Some v => {[ "vehicle" := v ]}
       | None => ∅
       end.
Proof.
  unfold async_refresh, refresh. simpl.
  destruct (vehicles !! vehicle_id self); reflexivity.
Qed.

Lemma async_refresh_data_set self update :
  Coordinator.data self <> None ->
  Coordinator.data (async_refresh self update) <> None.
Proof.
  intros Hd. destruct update as [vehicles|e].
  - rewrite async_refresh_ok. discriminate.
  - rewrite async_refresh_raise. assumption.
Qed.

Lemma async_refresh_snapshot_kept self update :
  snapshot self <> None ->
  (forall vehicles, update = Ok vehicles -> is_Some (vehicles !! vehicle_id self)) ->
  snapshot (async_refresh self update) <> None.
Proof.
  intros Hs Hkeep. unfold snapshot in *. destruct update as [vehicles|e].
  - rewrite async_refresh_ok. simpl.
    destruct (Hkeep vehicles eq_refl) as [v ->].
    rewrite lookup_singleton_eq. discriminate.
  - rewrite async_refresh_raise. assumption.
Qed.

(** C2, as stated, fails: a coordinator whose first refresh has set the
    snapshot loses it at the next refresh when the vendor call returns and
    the manager no longer holds the vehicle: [refresh] then returns the
    empty dict, which replaces the data. *)
Lemma C2_counterexample :
  let self := ready "KNDC3DLC5N5000001" {[ "door_lock" := PyBool true ]} in
  vehicle self = Ok (Some {[ "door_lock" := PyBool true ]}) /\
  refresh (vehicle_id self) (Ok ∅) = Ok ∅ /\
  Coordinator.data (async_refresh self (Ok ∅)) = Some ∅ /\
  vehicle (async_refresh self (Ok ∅)) = Ok None.
Proof.
  split; [|split; [|split]]; vm_compute; reflexivity.
Qed.

(** C2 (amended). Once an update has succeeded, the coordinator's data is
    never [None] again, whatever the later updates do; and the snapshot,
    once present, stays present as long as every update that returns
    leaves the vehicle in the manager. (An update that returns without the
    vehicle empties the data, and the snapshot is then absent.) *)
Theorem C2_data_stays_set (self : VehicleCoordinator)
    (updates : list (res (gmap string Vehicle))) :
  (Coordinator.data self <> None ->
   Coordinator.data (async_refreshes self updates) <> None) /\
  (snapshot self <> None ->
   Forall (fun update => forall vehicles,
             update = Ok vehicles -> is_Some (vehicles !! vehicle_id self)) updates ->
   snapshot (async_refreshes self updates) <> None).
Proof.
  unfold async_refreshes. revert self.
  induction updates as [|update updates IH]; intros self.
  - split; intros H; [|intros _]; exact H.
  - simpl. split.
    + intros Hd. apply IH. apply async_refresh_data_set. assumption.
    + intros Hs Hall. inversion Hall as [|? ? Hupdate Hrest]; subst.
      apply IH.
      * apply async_refresh_snapshot_kept; assumption.
      * rewrite async_refresh_vehicle_id. assumption.
Qed.

(** C2 at work: after a first refresh, a failed update, an update that
    lost the vehicle and another failed update leave the data set; a
    failed update and one that kept the vehicle leave the snapshot. *)
Lemma C2_data_stays_set_witness :
  let self := ready "KNDC3DLC5N5000001" {[ "door_lock" := PyBool true ]} in
  Coordinator.data
    (async_refreshes self [raise APIError "timeout"; Ok ∅; raise APIError "timeout"])
    <> None /\
  snapshot
    (async_refreshes self
       [raise APIError "timeout";
        Ok {[ "KNDC3DLC5N5000001" := {[ "door_lock" := PyBool false ]} ]}])
    <> None.
Proof.
  split.
  - refine (proj1 (C2_data_stays_set _ _) _). vm_compute. discriminate.
  - refine (proj2 (C2_data_stays_set _ _) _ _).
    + vm_compute. discriminate.
    + repeat constructor; intros vehicles [= <-]. vm_compute. eexists. reflexivity.
Defined.

(** ** Setup *)

Section ActLaws.

Context {S Ev A B : Type}.

Lemma act_bind_ok (m : act S Ev A) (k : A -> act S Ev B) s s1 t1 a :
  m s = (s1, t1, Ok a) ->
  (m ≫= k) s = (let '(s2, t2, r) := k a s1 in (s2, (t1 ++ t2)%list, r)).
Proof. intros H. unfold mbind, act_bind. rewrite H. reflexivity. Qed.

Lemma act_bind_raise (m : act S Ev A) (k : A -> act S Ev B) s s1 t1 e :
  m s = (s1, t1, Raise e) -> (m ≫= k) s = (s1, t1, Raise e).
Proof. intros H. unfold mbind, act_bind. rewrite H. reflexivity. Qed.

End ActLaws.

(** The state [hass.data.setdefault(DOMAIN, {})] leaves. *)
Lemma setdefault_domain_run DOMAIN (hd : Setup.HassData) :
  exists hd0,
    Setup.setdefault_domain DOMAIN hd = (hd0, [], Ok tt) /\
    hd0 !! DOMAIN = Some (default ∅ (hd !! DOMAIN)).
Proof.
  unfold Setup.setdefault_domain. cbv [mbind act_bind get put mret act_ret].
  destruct (hd !! DOMAIN) as [entries|] eqn:Hd.
  - exists hd. split; [reflexivity | assumption].
  - exists (<[DOMAIN := ∅]> hd). split; [reflexivity | apply lookup_insert_eq].
Qed.

(** The login leaves the state alone, constructs no coordinator, and ends
    as the first failing call does. *)
Lemma login_run account username password (hd : Setup.HassData) :
  exists calls,
    Setup.login account username password hd = (hd, calls, first_error account) /\
    Forall (fun c => constructs_coordinator c = false) calls.
Proof.
  unfold Setup.login, first_error. cbv [mbind act_bind res_bind call].
  destruct (VehicleManager account) as [[]|e1];
    [destruct (check_and_refresh_token account) as [[]|e2];
       [destruct (update_all_vehicles_with_cached_state account) as [[]|e3]|]|];
    eexists; (split; [reflexivity | repeat constructor]).
Qed.

(** The run of [async_setup_entry] up to the end of its [try] statement,
    for an entry that holds the credentials. *)
Lemma setup_entry_login_error DOMAIN DEFAULT_SCAN_INTERVAL host account config_entry
    (hd : Setup.HassData) username password err :
  Setup.data config_entry !! CONF_USERNAME = Some username ->
  Setup.data config_entry !! CONF_PASSWORD = Some password ->
  first_error account = Raise err ->
  exists hd' calls,
    Setup.async_setup_entry DOMAIN DEFAULT_SCAN_INTERVAL host account config_entry hd =
      (hd', calls,
       Raise (if isinstance err AuthenticationError
              then Exn ConfigEntryAuthFailed (exn_str err)
              else if isinstance err APIError
              then Exn ConfigEntryError ("API error: " ++ exn_str err)
              else Exn ConfigEntryError ("Unexpected error: " ++ exn_str err))) /\
    Forall (fun c => constructs_coordinator c = false) calls /\
    hd' !! DOMAIN = Some (default ∅ (hd !! DOMAIN)).
Proof.
  intros Hu Hp Herr.
  destruct (setdefault_domain_run DOMAIN hd) as (hd0 & Hsd & Hhd0).
  destruct (login_run account username password hd0) as (calls & Hlogin & Hcalls).
  exists hd0, (Setup.async_setup_services :: calls).
  split; [|split; [|assumption]].
  - unfold Setup.async_setup_entry, Setup.on_async_setup_services.
    rewrite (act_bind_ok _ _ _ _ _ _ Hsd).
    cbv [mbind act_bind call lift getitem try_catch]. rewrite Hu, Hp, Hlogin, Herr.
    unfold Setup.on_login_error, throw, lift, raise.
    destruct (isinstance err AuthenticationError);
      [|destruct (isinstance err APIError)]; simpl; rewrite app_nil_r; reflexivity.
  - constructor; [reflexivity | assumption].
Qed.

(** C4. When the login of [async_setup_entry] fails (the manager cannot
    be built, the token refresh or the vehicle fetch raises), setup raises:
    [ConfigEntryAuthFailed] for an [AuthenticationError],
    [ConfigEntryError] with an API message for an [APIError], and
    [ConfigEntryError] with a generic message for any other exception. No
    coordinator has been constructed by then, and [hass.data[DOMAIN]] holds
    the entries it held before: nothing is stored for this entry. *)
Theorem C4_setup_fails_on_login_error DOMAIN DEFAULT_SCAN_INTERVAL host account
    config_entry (hd : Setup.HassData) username password err :
  Setup.data config_entry !! CONF_USERNAME = Some username ->
  Setup.data config_entry !! CONF_PASSWORD = Some password ->
  first_error account = Raise err ->
  exists hd' calls raised,
    Setup.async_setup_entry DOMAIN DEFAULT_SCAN_INTERVAL host account config_entry hd =
      (hd', calls, Raise raised) /\
    (exn_class err = AuthenticationError ->
       raised = Exn ConfigEntryAuthFailed (exn_str err)) /\
    (exn_class err = APIError ->
       raised = Exn ConfigEntryError ("API error: " ++ exn_str err)) /\
    (exn_class err <> AuthenticationError -> exn_class err <> APIError ->
       raised = Exn ConfigEntryError ("Unexpected error: " ++ exn_str err)) /\
    Forall (fun c => constructs_coordinator c = false) calls /\
    hd' !! DOMAIN = Some (default ∅ (hd !! DOMAIN)).
Proof.
  intros Hu Hp Herr.
  destruct (setup_entry_login_error DOMAIN DEFAULT_SCAN_INTERVAL host account config_entry
              hd username password err Hu Hp Herr) as (hd' & calls & Hrun & Hcalls & Hhd).
  exists hd', calls. eexists. split; [exact Hrun|].
  unfold isinstance.
  split; [|split; [|split; [|split; assumption]]].
  - intros Hc. rewrite bool_decide_eq_true_2 by assumption. reflexivity.
  - intros Hc. rewrite bool_decide_eq_false_2 by (rewrite Hc; discriminate).
    rewrite bool_decide_eq_true_2 by assumption. reflexivity.
  - intros Hc1 Hc2. rewrite !bool_decide_eq_false_2 by assumption. reflexivity.
Qed.

(** C4 at work: a refused token refresh. *)
Lemma C4_setup_fails_on_login_error_witness :
  exists hd' calls,
    Setup.async_setup_entry "ha_kia_hyundai" 10 quiet_host refused_account entry ∅ =
      (hd', calls, raise ConfigEntryAuthFailed "Login failed") /\
    Forall (fun c => constructs_coordinator c = false) calls /\
    hd' !! "ha_kia_hyundai" = Some ∅.
Proof.
  destruct (C4_setup_fails_on_login_error "ha_kia_hyundai" 10 quiet_host refused_account entry ∅
              "driver@example.com" "hunter2" (Exn AuthenticationError "Login failed")
              eq_refl eq_refl eq_refl)
    as (hd' & calls & raised & Hrun & Hauth & _ & _ & Hcalls & Hhd).
  exists hd', calls. rewrite Hrun, (Hauth eq_refl).
  split; [reflexivity | split; assumption].
Defined.

Lemma dict_truthy_empty {A : Type} : dict_truthy (∅ : gmap string A) = false.
Proof. reflexivity. Qed.

(** With no vehicle in the account, [async_setup_entry] raises after the
    login and before the loop over the vehicles. *)
Lemma setup_entry_no_vehicles DOMAIN DEFAULT_SCAN_INTERVAL host account config_entry
    (hd : Setup.HassData) username password :
  Setup.data config_entry !! CONF_USERNAME = Some username ->
  Setup.data config_entry !! CONF_PASSWORD = Some password ->
  first_error account = Ok tt ->
  vehicles account = ∅ ->
  exists hd' calls,
    Setup.async_setup_entry DOMAIN DEFAULT_SCAN_INTERVAL host account config_entry hd =
      (hd', calls, raise ConfigEntryError "No vehicles found in account") /\
    Forall (fun c => constructs_coordinator c = false) calls /\
    hd' !! DOMAIN = Some (default ∅ (hd !! DOMAIN)).
Proof.
  intros Hu Hp Hok Hnone.
  destruct (setdefault_domain_run DOMAIN hd) as (hd0 & Hsd & Hhd0).
  destruct (login_run account username password hd0) as (calls & Hlogin & Hcalls).
  exists hd0, (Setup.async_setup_services :: calls).
  split; [|split; [|assumption]].
  - unfold Setup.async_setup_entry, Setup.on_async_setup_services.
    rewrite (act_bind_ok _ _ _ _ _ _ Hsd).
    cbv [mbind act_bind call lift getitem try_catch]. rewrite Hu, Hp, Hlogin, Hok.
    rewrite Hnone, dict_truthy_empty. unfold throw, lift. simpl.
    rewrite app_nil_r. reflexivity.
  - constructor; [reflexivity | assumption].
Qed.

(** With no vehicle in the account, the user step shows its form again
    with the error [no_vehicles]. *)
Lemma step_user_no_vehicles account configured (self : ConfigFlow.KiaUvoConfigFlowHandler)
    (user_input : gmap string string) username password :
  user_input !! CONF_USERNAME = Some username ->
  user_input !! CONF_PASSWORD = Some password ->
  first_error account = Ok tt ->
  vehicles account = ∅ ->
  ConfigFlow.async_step_user account configured (Some user_input) self =
    (ConfigFlow.set_vehicle_manager self ∅, [],
     Ok (ConfigFlow.async_show_form "user" {[ "base" := "no_vehicles" ]})).
Proof.
  intros Hu Hp Hok Hnone. unfold first_error in Hok.
  unfold ConfigFlow.async_step_user, ConfigFlow.try_login.
  cbv [mbind act_bind res_bind call lift getitem try_catch get put] in *.
  rewrite Hu, Hp, Hnone, dict_truthy_empty.
  destruct (VehicleManager account) as [[]|]; [|discriminate].
  destruct (check_and_refresh_token account) as [[]|]; [|discriminate].
  destruct (update_all_vehicles_with_cached_state account) as [[]|]; [|discriminate].
  reflexivity.
Qed.

(** C5. When the login and the fetch succeed and the account has no
    vehicle, [async_setup_entry] raises [ConfigEntryError("No vehicles found
    in account")], with no coordinator constructed and nothing stored for
    the entry; and the user step of the config flow returns its form with
    the error [no_vehicles], no entry being created. *)
Theorem C5_no_vehicles DOMAIN DEFAULT_SCAN_INTERVAL host account config_entry
    (hd : Setup.HassData) configured (flow : ConfigFlow.KiaUvoConfigFlowHandler)
    (user_input : gmap string string) username password :
  first_error account = Ok tt ->
  vehicles account = ∅ ->
  (Setup.data config_entry !! CONF_USERNAME = Some username ->
   Setup.data config_entry !! CONF_PASSWORD = Some password ->
   exists hd' calls,
     Setup.async_setup_entry DOMAIN DEFAULT_SCAN_INTERVAL host account config_entry hd =
       (hd', calls, raise ConfigEntryError "No vehicles found in account") /\
     Forall (fun c => constructs_coordinator c = false) calls /\
     hd' !! DOMAIN = Some (default ∅ (hd !! DOMAIN))) /\
  (user_input !! CONF_USERNAME = Some username ->
   user_input !! CONF_PASSWORD = Some password ->
   exists flow',
     ConfigFlow.async_step_user account configured (Some user_input) flow =
       (flow', [],
        Ok (ConfigFlow.async_show_form "user" {[ "base" := "no_vehicles" ]}))).
Proof.
  intros Hok Hnone. split.
  - intros Hu Hp. apply (setup_entry_no_vehicles _ _ _ _ _ _ username password); assumption.
  - intros Hu Hp. eexists.
    apply (step_user_no_vehicles _ _ _ _ username password); assumption.
Qed.

(** C5 at work: an account that logs in and has no vehicle. *)
Lemma C5_no_vehicles_witness :
  (exists hd' calls,
     Setup.async_setup_entry "ha_kia_hyundai" 10 quiet_host empty_account entry ∅ =
       (hd', calls, raise ConfigEntryError "No vehicles found in account") /\
     Forall (fun c => constructs_coordinator c = false) calls /\
     hd' !! "ha_kia_hyundai" = Some ∅) /\
  (exists flow',
     ConfigFlow.async_step_user empty_account ∅ (Some credentials) new_flow =
       (flow', [],
        Ok (ConfigFlow.async_show_form "user" {[ "base" := "no_vehicles" ]}))).
Proof.
  destruct (C5_no_vehicles "ha_kia_hyundai" 10 quiet_host empty_account entry ∅ ∅ new_flow
              credentials "driver@example.com" "hunter2" eq_refl eq_refl)
    as [Hsetup Hflow].
  split.
  - apply Hsetup; reflexivity.
  - apply Hflow; reflexivity.
Defined.

(** A login error in the user step of the flow shows the form again, with
    the error that names the class of the exception. *)
Lemma step_user_login_error account configured
    (self : ConfigFlow.KiaUvoConfigFlowHandler)
    (user_input : gmap string string) username password err :
  user_input !! CONF_USERNAME = Some username ->
  user_input !! CONF_PASSWORD = Some password ->
  first_error account = Raise err ->
  exists self',
    ConfigFlow.async_step_user account configured (Some user_input) self =
      (self', [],
       Ok (ConfigFlow.async_show_form "user"
             {[ "base" := if isinstance err AuthenticationError then "invalid_auth"
                          else if isinstance err APIError then "cannot_connect"
                          else "unknown" ]})).
Proof.
  intros Hu Hp Herr. unfold first_error in Herr.
  unfold ConfigFlow.async_step_user, ConfigFlow.try_login, ConfigFlow.on_login_error.
  cbv [mbind act_bind res_bind call lift getitem try_catch get put] in *.
  rewrite Hu, Hp.
  destruct (VehicleManager account) as [[]|e1];
    [destruct (check_and_refresh_token account) as [[]|e2];
       [destruct (update_all_vehicles_with_cached_state account) as [[]|e3];
          [discriminate|]|]|];
    injection Herr as ->;
    (destruct (isinstance err AuthenticationError);
       [|destruct (isinstance err APIError)]); eexists; reflexivity.
Qed.

(** A setup that succeeds: the coordinator is constructed, refreshed and
    stored under the entry. *)
Example setup_one_vehicle :
  Setup.async_setup_entry "ha_kia_hyundai" 10 quiet_host one_vehicle_account entry ∅ =
  ({[ "ha_kia_hyundai" :=
        {[ "01J8" :=
             {| Setup.coordinators :=
                  {[ "KNDC3DLC5N5000001" := ready "KNDC3DLC5N5000001" ev6 ]};
                Setup.vehicle_manager := {[ "KNDC3DLC5N5000001" := ev6 ]} |} ]} ]},
   [ Setup.async_setup_services;
     Setup.new_VehicleManager 3 1 "driver@example.com" "hunter2" "";
     Setup.call_check_and_refresh_token;
     Setup.call_update_all_vehicles_with_cached_state;
     Setup.new_VehicleCoordinator "KNDC3DLC5N5000001" (PyStr "EV6") (PyStr "EV6") 10;
     Setup.async_config_entry_first_refresh "KNDC3DLC5N5000001";
     Setup.async_forward_entry_setups;
     Setup.add_update_listener ],
   Ok true).
Proof. vm_compute. reflexivity. Qed.

(** The user step on the same account creates the entry of the account. *)
Example step_user_one_vehicle :
  ConfigFlow.async_step_user one_vehicle_account ∅ (Some credentials) new_flow =
  ({| ConfigFlow.data := credentials;
      ConfigFlow.vehicle_manager := Some {[ "KNDC3DLC5N5000001" := ev6 ]};
      ConfigFlow.source := "user" |},
   [],
   Ok (ConfigFlow.async_create_entry "Kia USA Account (driver@example.com)" credentials)).
Proof. vm_compute. reflexivity. Qed.

(** The thermostat of that vehicle starts at the snapshot's temperature
    and reports the mode off. *)
Example thermostat_one_vehicle :
  Climate.init (ready "KNDC3DLC5N5000001" ev6) =
    Ok {| Climate.coordinator := ready "KNDC3DLC5N5000001" ev6;
          Climate._attr_target_temperature := PyInt 72 |} /\
  (t ← Climate.init (ready "KNDC3DLC5N5000001" ev6); Climate.hvac_mode t)
    = Ok Climate.OFF.
Proof. split; vm_compute; reflexivity. Qed.

(** The debouncer handed to the host does not run the first request at
    once and waits for the host's default cooldown. *)
Lemma request_refresh_debouncer_config cooldown :
  immediate (request_refresh_debouncer cooldown) = false /\
  Coordinator.cooldown (request_refresh_debouncer cooldown) = cooldown.
Proof. split; reflexivity. Qed.

(** * Further properties of the code *)

(** ** The coordinator across refreshes *)

(** A getter of the table reads nothing but its field of the snapshot. *)
Lemma getter_reads_field name F getter (self1 self2 : VehicleCoordinator) :
  In (name, F, getter) derived_properties ->
  field self1 F = field self2 F ->
  getter self1 = getter self2.
Proof.
  intros Hin Hf.
  destruct (decide (name = "climate_temperature_value")) as [Heq | Hne].
  - destruct (derived_properties_temperature _ _ _ Hin Heq) as [-> ->].
    rewrite !climate_temperature_value_field, Hf. reflexivity.
  - rewrite (derived_properties_plain _ _ _ Hin Hne).
    rewrite !vehicle_attr_field, Hf. reflexivity.
Qed.

Lemma snapshot_after_ok (self : VehicleCoordinator) (vehicles : gmap string Vehicle) :
  snapshot (async_refresh self (Ok vehicles)) = vehicles !! vehicle_id self.
Proof.
  unfold snapshot. rewrite async_refresh_ok. simpl.
  destruct (vehicles !! vehicle_id self) as [v|].
  - apply lookup_singleton_eq.
  - apply lookup_empty.
Qed.

Lemma async_refreshes_app self updates1 updates2 :
  async_refreshes self (updates1 ++ updates2) =
  async_refreshes (async_refreshes self updates1) updates2.
Proof. unfold async_refreshes. apply fold_left_app. Qed.

Lemma async_refreshes_vehicle_id self updates :
  vehicle_id (async_refreshes self updates) = vehicle_id self.
Proof.
  unfold async_refreshes. revert self.
  induction updates as [|u updates IH]; intros self; [reflexivity|].
  simpl. rewrite IH. apply async_refresh_vehicle_id.
Qed.

Lemma async_refreshes_all_raise self failures :
  Forall (fun u : res (gmap string Vehicle) => exists e, u = Raise e) failures ->
  Coordinator.data (async_refreshes self failures) = Coordinator.data self.
Proof.
  unfold async_refreshes. revert self.
  induction failures as [|u failures IH]; intros self Hall; [reflexivity|].
  inversion Hall as [|? ? [e ->] Hrest]; subst. simpl.
  rewrite (IH _ Hrest). apply async_refresh_raise.
Qed.

(** X1. After a refresh that returned, what a read property returns is
    decided by the vehicle the manager holds under the coordinator's id:
    two coordinators with the same id read the same values, whatever data
    they held before. *)
Theorem refresh_leaves_no_stale_value name F getter
    (self1 self2 : VehicleCoordinator) (vehicles : gmap string Vehicle) :
  In (name, F, getter) derived_properties ->
  vehicle_id self1 = vehicle_id self2 ->
  field (async_refresh self1 (Ok vehicles)) F =
    (vehicles !! vehicle_id self1) ≫= (fun v => v !! F) /\
  getter (async_refresh self1 (Ok vehicles)) =
    getter (async_refresh self2 (Ok vehicles)).
Proof.
  intros Hin Hid.
  assert (Hfield : forall self : VehicleCoordinator,
            field (async_refresh self (Ok vehicles)) F =
            (vehicles !! vehicle_id self) ≫= (fun v => v !! F)).
  { intros self. unfold field. rewrite snapshot_after_ok. reflexivity. }
  split; [apply Hfield|].
  apply (getter_reads_field name F getter _ _ Hin).
  rewrite !Hfield, Hid. reflexivity.
Qed.

Lemma refresh_leaves_no_stale_value_witness :
  odometer_value
    (async_refresh (ready "KNDC3DLC5N5000001" {[ "odometer" := PyInt 100;
                                                  "door_lock" := PyBool true ]})
       (Ok {[ "KNDC3DLC5N5000001" := {[ "odometer" := PyInt 120 ]} ]}))
  = odometer_value
      (async_refresh (Coordinator.init "KNDC3DLC5N5000001" PyNone PyNone 5)
         (Ok {[ "KNDC3DLC5N5000001" := {[ "odometer" := PyInt 120 ]} ]})).
Proof.
  refine (proj2 (refresh_leaves_no_stale_value "odometer_value" "odometer"
                   odometer_value _ _ _ _ _)).
  - simpl. do 4 right. left. reflexivity.
  - reflexivity.
Defined.



(** X3. No sequence of refreshes touches the coordinator's identity, its
    update interval or its desired-state flags: a desired flag is never
    reconciled with what a refresh reports. *)
Theorem refreshes_keep_identity_and_flags (self : VehicleCoordinator)
    (updates : list (res (gmap string Vehicle))) :
  let self' := async_refreshes self updates in
  vehicle_id self' = vehicle_id self /\
  vehicle_name self' = vehicle_name self /\
  vehicle_model self' = vehicle_model self /\
  update_interval self' = update_interval self /\
  climate_desired_defrost self' = climate_desired_defrost self /\
  climate_desired_heating_acc self' = climate_desired_heating_acc self.
Proof.
  unfold async_refreshes. revert self.
  induction updates as [|u updates IH]; intros self.
  - simpl. repeat split.
  - simpl. destruct (IH (async_refresh self u)) as (H1 & H2 & H3 & H4 & H5 & H6).
    rewrite H1, H2, H3, H4, H5, H6.
    unfold async_refresh. destruct (refresh _ _) as [d|e]; [repeat split|].
    destruct (isinstance e NotImplementedError); repeat split.
Qed.

(** X4. The snapshot after a run of refreshes is the vehicle the manager
    held at the last refresh that returned; refreshes that raised after it
    do not count, and neither does anything before it. *)
Theorem last_returned_refresh_decides (self : VehicleCoordinator)
    (updates failures : list (res (gmap string Vehicle)))
    (vehicles : gmap string Vehicle) :
  Forall (fun u => exists e, u = Raise e) failures ->
  snapshot (async_refreshes self (updates ++ Ok vehicles :: failures)) =
  vehicles !! vehicle_id self.
Proof.
  intros Hfail.
  rewrite async_refreshes_app.
  change (Ok vehicles :: failures) with ([Ok vehicles] ++ failures)%list.
  rewrite async_refreshes_app.
  unfold snapshot at 1. rewrite (async_refreshes_all_raise _ _ Hfail).
  change (snapshot (async_refresh (async_refreshes self updates) (Ok vehicles))
          = vehicles !! vehicle_id self).
  rewrite snapshot_after_ok, async_refreshes_vehicle_id. reflexivity.
Qed.

Lemma last_returned_refresh_decides_witness :
  snapshot
    (async_refreshes (Coordinator.init "KNDC3DLC5N5000001" PyNone PyNone 5)
       ([Ok ∅; raise APIError "timeout"]
        ++ Ok {[ "KNDC3DLC5N5000001" := {[ "odometer" := PyInt 120 ]} ]}
           :: [raise APIError "timeout"; raise OtherException "boom"]))
  = Some {[ "odometer" := PyInt 120 ]}.
Proof.
  rewrite last_returned_refresh_decides.
  - vm_compute. reflexivity.
  - repeat constructor; eexists; reflexivity.
Defined.

(** ** The thermostat: creation, modes and temperature *)

(** [Thermostat.__init__] never raises. *)
Lemma thermostat_init_run (c : VehicleCoordinator) :
  Climate.init c = Ok (thermostat_of c).
Proof.
  unfold Climate.init, thermostat_of, initial_target.
  rewrite climate_temperature_value_field. simpl.
  destruct (field c "air_temperature") as [temp|]; simpl; [|reflexivity].
  unfold coerced. destruct (py_truthy temp); [|reflexivity].
  destruct (py_int temp) as [n|e]; [|reflexivity].
  unfold py_or. simpl. destruct (n =? 0); reflexivity.
Qed.

(** The run of [async_set_hvac_mode] on a mode that normalises to
    heat-cool or auto. *)
Lemma set_hvac_mode_on (self : Climate.Thermostat) (mode : string)
    (set_temp : Z) (job : res unit) :
  lower (strip mode) = "heat_cool" \/ lower (strip mode) = "auto" ->
  py_int (Climate.target_temperature self) = Ok set_temp ->
  Climate.async_set_hvac_mode mode job self =
    (self, start_call self set_temp :: after_job job, job).
Proof.
  intros Hmode Hint. unfold Climate.async_set_hvac_mode.
  cbv [mbind act_bind get lift call Climate.value].
  destruct Hmode as [-> | ->]; simpl; rewrite Hint;
    destruct job as [[]|e]; reflexivity.
Qed.

(** X5. Creating a thermostat never raises. Its target temperature is an
    integer: the snapshot's temperature when that converts to a nonzero
    integer, and 72 otherwise. Setting such a thermostat to heat-cool
    always reaches the vendor, with that temperature. *)
Theorem new_thermostat_starts_at_snapshot_or_72 (c : VehicleCoordinator)
    (job : res unit) :
  Climate.init c = Ok (thermostat_of c) /\
  (field c "air_temperature" = None -> initial_target c = 72) /\
  (forall temp n, field c "air_temperature" = Some temp ->
     py_truthy temp = true -> py_int temp = Ok n -> n <> 0 ->
     initial_target c = n) /\
  Climate.async_set_hvac_mode "heat_cool" job (thermostat_of c) =
    (thermostat_of c,
     Climate.start_climate (vehicle_id c) (initial_target c)
       (climate_desired_defrost c) true (climate_desired_heating_acc c)
     :: after_job job,
     job).
Proof.
  split; [apply thermostat_init_run|]. split; [|split].
  - unfold initial_target. intros ->. reflexivity.
  - unfold initial_target, coerced. intros temp n -> Ht Hn Hnz. simpl.
    rewrite Ht, Hn. apply Z.eqb_neq in Hnz. rewrite Hnz. reflexivity.
  - apply (set_hvac_mode_on (thermostat_of c) "heat_cool" (initial_target c) job).
    + left. reflexivity.
    + reflexivity.
Qed.



(** X7. The mode is matched after stripping blanks and lowering case, and
    auto is served like heat-cool: any such spelling starts the climate
    with the converted target temperature and the desired flags; any
    spelling of off stops it. What follows the vendor call depends on
    whether it returned. *)
Theorem mode_spelling_is_normalised (self : Climate.Thermostat) (mode : string)
    (job : res unit) :
  (forall set_temp,
     lower (strip mode) = "heat_cool" \/ lower (strip mode) = "auto" ->
     py_int (Climate.target_temperature self) = Ok set_temp ->
     Climate.async_set_hvac_mode mode job self =
       (self, start_call self set_temp :: after_job job, job)) /\
  (lower (strip mode) = "off" ->
   Climate.async_set_hvac_mode mode job self =
     (self,
      Climate.stop_climate (vehicle_id (Climate.coordinator self)) :: after_job job,
      job)).
Proof.
  split.
  - intros set_temp Hmode Hint. apply set_hvac_mode_on; assumption.
  - intros Hmode. unfold Climate.async_set_hvac_mode.
    cbv [mbind act_bind get lift call Climate.value]. rewrite Hmode. simpl.
    destruct job as [[]|e]; reflexivity.
Qed.

Lemma mode_spelling_is_normalised_witness :
  Climate.async_set_hvac_mode "  AUTO " (Ok tt)
    (thermostat_of (ready "KNDC3DLC5N5000001" ev6)) =
  (thermostat_of (ready "KNDC3DLC5N5000001" ev6),
   [ Climate.start_climate "KNDC3DLC5N5000001" 72 false true false;
     Climate.async_update_listeners; Climate.async_request_refresh ],
   Ok tt) /\
  Climate.async_set_hvac_mode "Off" (raise APIError "busy")
    (thermostat_of (ready "KNDC3DLC5N5000001" ev6)) =
  (thermostat_of (ready "KNDC3DLC5N5000001" ev6),
   [ Climate.stop_climate "KNDC3DLC5N5000001" ],
   raise APIError "busy").
Proof.
  split.
  - refine (proj1 (mode_spelling_is_normalised _ _ _) 72 _ _).
    + right. reflexivity.
    + reflexivity.
  - refine (proj2 (mode_spelling_is_normalised _ _ _) _). reflexivity.
Defined.


(** X9. Setting the temperature and then the mode heat-cool: the climate
    is started with the integer part of the temperature just set; when
    the keyword arguments carry no temperature, the target becomes [None],
    and the mode change raises before any vendor call and before any
    refresh is requested. *)
Theorem set_temperature_then_heat_cool (self : Climate.Thermostat)
    (kwargs : gmap string PyVal) (job : res unit) :
  (forall t n, kwargs !! "temperature" = Some t -> py_int t = Ok n ->
     (Climate.async_set_temperature kwargs;;
      Climate.async_set_hvac_mode "heat_cool" job) self =
     ({| Climate.coordinator := Climate.coordinator self;
         Climate._attr_target_temperature := t |},
      Climate.async_update_listeners :: start_call self n :: after_job job,
      job)) /\
  (kwargs !! "temperature" = None ->
   exists e,
     exn_class e = TypeError /\
     (Climate.async_set_temperature kwargs;;
      Climate.async_set_hvac_mode "heat_cool" job) self =
     ({| Climate.coordinator := Climate.coordinator self;
         Climate._attr_target_temperature := PyNone |},
      [Climate.async_update_listeners],
      Raise e)).
Proof.
  split.
  - intros t n Hk Hn.
    unfold Climate.async_set_temperature, Climate.async_set_hvac_mode,
      Climate.ATTR_TEMPERATURE.
    cbv [mbind act_bind get put lift call Climate.value Climate.target_temperature].
    rewrite Hk. simpl. rewrite Hn. destruct job as [[]|e]; reflexivity.
  - intros Hk. eexists. split; [|
      unfold Climate.async_set_temperature, Climate.async_set_hvac_mode,
        Climate.ATTR_TEMPERATURE;
      cbv [mbind act_bind get put lift call Climate.value Climate.target_temperature];
      rewrite Hk; simpl; reflexivity].
    reflexivity.
Qed.

Lemma set_temperature_then_heat_cool_witness :
  (Climate.async_set_temperature {[ "temperature" := PyFloat 68.5%float ]};;
   Climate.async_set_hvac_mode "heat_cool" (Ok tt))
    (thermostat_of (ready "KNDC3DLC5N5000001" ev6)) =
  ({| Climate.coordinator := ready "KNDC3DLC5N5000001" ev6;
      Climate._attr_target_temperature := PyFloat 68.5%float |},
   [ Climate.async_update_listeners;
     Climate.start_climate "KNDC3DLC5N5000001" 68 false true false;
     Climate.async_update_listeners; Climate.async_request_refresh ],
   Ok tt).
Proof.
  refine (proj1 (set_temperature_then_heat_cool _ _ _) (PyFloat 68.5%float) 68 _ _).
  - reflexivity.
  - vm_compute. reflexivity.
Defined.

(** ** Setup: the loop over the vehicles *)

(** One turn of the loop. *)
Lemma setup_coordinators_cons account si id (v : Vehicle) rest acc
    (hd : Setup.HassData) :
  Setup.setup_coordinators account si ((id, v) :: rest) acc hd =
  match v !! "name" with
  | None => (hd, [], raise AttributeError "'Vehicle' object has no attribute 'name'")
  | Some name =>
      match v !! "model" with
      | None =>
          (hd, [], raise AttributeError "'Vehicle' object has no attribute 'model'")
      | Some model =>
          match refresh id (update_vehicle_with_cached_state account id) with
          | Raise e =>
              (hd, coordinator_calls si (id, v), Raise (first_refresh_error e))
          | Ok d =>
              let '(hd', calls, r) :=
                Setup.setup_coordinators account si rest
                  (<[id := set_data (Coordinator.init id name model si) (Some d) true]> acc)
                  hd in
              (hd', (coordinator_calls si (id, v) ++ calls)%list, r)
          end
      end
  end.
Proof.
  simpl. cbv [mbind act_bind lift call getattr Setup.first_refresh].
  unfold coordinator_calls, first_refresh_error. simpl.
  destruct (v !! "name") as [name|]; [|reflexivity].
  destruct (v !! "model") as [model|]; [|reflexivity]. simpl.
  destruct (refresh id (update_vehicle_with_cached_state account id)) as [d|e].
  - destruct (Setup.setup_coordinators account si rest _ hd) as [[hd' calls] r].
    reflexivity.
  - destruct (isinstance e ConfigEntryAuthFailed || isinstance e ConfigEntryError
              || isinstance e NotImplementedError); reflexivity.
Qed.

(** The loop never touches [hass.data]. When it returns, it has made the
    two calls of every vehicle, in order, and has added to the
    coordinators it started from the refreshed coordinator of every
    vehicle; when it raises, some vehicle lacks its name or model, or its
    first refresh raised. *)
Lemma setup_coordinators_run account si (items : list (string * Vehicle)) acc
    (hd : Setup.HassData) :
  exists calls r,
    Setup.setup_coordinators account si items acc hd = (hd, calls, r) /\
    match r with
    | Ok cs =>
        calls = flat_map (coordinator_calls si) items /\
        Forall (fun item => exists c, first_refreshed account si item.1 item.2 c) items /\
        (forall id c, cs !! id = Some c ->
           acc !! id = Some c \/
           exists v, In (id, v) items /\ first_refreshed account si id v c) /\
        (forall id, is_Some (acc !! id) \/ (exists v, In (id, v) items) ->
           is_Some (cs !! id))
    | Raise e =>
        exists id v, In (id, v) items /\
          ((v !! "name" = None \/ v !! "model" = None) /\
           exn_class e = AttributeError
           \/ exists e0, update_vehicle_with_cached_state account id = Raise e0 /\
                         e = first_refresh_error e0)
    end.
Proof.
  revert acc. induction items as [|[id v] rest IH]; intros acc.
  - exists [], (Ok acc). split; [reflexivity|]. split; [reflexivity|].
    split; [constructor|]. split.
    + intros id c Hc. left. exact Hc.
    + intros id [Hacc | [v []]]. exact Hacc.
  - rewrite setup_coordinators_cons.
    destruct (v !! "name") as [name|] eqn:Hname.
    2:{ eexists [], _. split; [reflexivity|].
        exists id, v. split; [left; reflexivity|]. left.
        split; [left; exact Hname | reflexivity]. }
    destruct (v !! "model") as [model|] eqn:Hmodel.
    2:{ eexists [], _. split; [reflexivity|].
        exists id, v. split; [left; reflexivity|]. left.
        split; [right; exact Hmodel | reflexivity]. }
    destruct (refresh id (update_vehicle_with_cached_state account id)) as [d|e] eqn:Hr.
    2:{ eexists _, _. split; [reflexivity|].
        exists id, v. split; [left; reflexivity|]. right. exists e. split; [|reflexivity].
        unfold refresh in Hr.
        destruct (update_vehicle_with_cached_state account id) as [vs|e1];
          simpl in Hr; [|congruence].
        destruct (vs !! id); discriminate. }
    set (c0 := set_data (Coordinator.init id name model si) (Some d) true).
    assert (Hc0 : first_refreshed account si id v c0).
    { exists name, model, d. repeat split; assumption. }
    destruct (IH (<[id := c0]> acc)) as (calls & r & Hrun & Hspec).
    rewrite Hrun. eexists _, r. split; [reflexivity|].
    destruct r as [cs|e].
    + destruct Hspec as (Hcalls & Hall & Hfrom & Hdom).
      split; [simpl; rewrite Hcalls; reflexivity|].
      split; [constructor; [exists c0; exact Hc0 | exact Hall]|]. split.
      * intros id' c Hc. destruct (Hfrom id' c Hc) as [Hacc | (v' & Hin & Hv')].
        -- destruct (decide (id = id')) as [<- | Hne].
           ++ rewrite lookup_insert_eq in Hacc. injection Hacc as <-.
              right. exists v. split; [left; reflexivity | exact Hc0].
           ++ rewrite lookup_insert_ne in Hacc by assumption. left. exact Hacc.
        -- right. exists v'. split; [right; exact Hin | exact Hv'].
      * intros id' Hid'. apply Hdom.
        destruct Hid' as [Hacc | (v' & [[= <- <-] | Hin])].
        -- left. destruct (decide (id = id')) as [<- | Hne].
           ++ rewrite lookup_insert_eq. eexists; reflexivity.
           ++ rewrite lookup_insert_ne by assumption. exact Hacc.
        -- left. rewrite lookup_insert_eq. eexists; reflexivity.
        -- right. exists v'. exact Hin.
    + destruct Hspec as (id' & v' & Hin & Hwhy).
      exists id', v'. split; [right; exact Hin | exact Hwhy].
Qed.

(** ** Setup: the whole of [async_setup_entry] *)

(** [setdefault] creates the domain if need be and touches nothing else. *)
Lemma setdefault_domain_frame DOMAIN (hd : Setup.HassData) :
  exists hd0,
    Setup.setdefault_domain DOMAIN hd = (hd0, [], Ok tt) /\
    hd0 !! DOMAIN = Some (default ∅ (hd !! DOMAIN)) /\
    (forall d, d <> DOMAIN -> hd0 !! d = hd !! d).
Proof.
  unfold Setup.setdefault_domain. cbv [mbind act_bind get put mret act_ret].
  destruct (hd !! DOMAIN) as [entries|] eqn:Hd.
  - exists hd. split; [reflexivity|]. split; [assumption | reflexivity].
  - exists (<[DOMAIN := ∅]> hd). split; [reflexivity|].
    split; [apply lookup_insert_eq|].
    intros d Hd'. apply lookup_insert_ne. congruence.
Qed.

Lemma login_ok_run account username password (hd : Setup.HassData) :
  first_error account = Ok tt ->
  Setup.login account username password hd =
    (hd, login_calls username password, Ok tt).
Proof.
  unfold Setup.login, first_error, login_calls.
  cbv [mbind act_bind res_bind call].
  destruct (VehicleManager account) as [[]|]; [|discriminate].
  destruct (check_and_refresh_token account) as [[]|]; [|discriminate].
  destruct (update_all_vehicles_with_cached_state account) as [[]|]; [|discriminate].
  reflexivity.
Qed.

Lemma dict_truthy_false {A : Type} (d : gmap string A) :
  dict_truthy d = false <-> d = ∅.
Proof.
  unfold dict_truthy. rewrite negb_false_iff, Nat.eqb_eq.
  apply map_size_empty_iff.
Qed.

(** The run of [async_setup_entry] once the login has succeeded and has
    found vehicles: the loop decides whether the entry is stored, and the
    host's calls decide the result after that. *)
Lemma setup_entry_after_login DOMAIN DEFAULT_SCAN_INTERVAL host account config_entry
    (hd : Setup.HassData) username password :
  Setup.data config_entry !! CONF_USERNAME = Some username ->
  Setup.data config_entry !! CONF_PASSWORD = Some password ->
  first_error account = Ok tt ->
  dict_truthy (vehicles account) = true ->
  exists hd0 calls_c r_c,
    hd0 !! DOMAIN = Some (default ∅ (hd !! DOMAIN)) /\
    (forall d, d <> DOMAIN -> hd0 !! d = hd !! d) /\
    Setup.setup_coordinators account
      (scan_interval_of DEFAULT_SCAN_INTERVAL config_entry)
      (map_to_list (vehicles account)) ∅ hd0 = (hd0, calls_c, r_c) /\
    Setup.async_setup_entry DOMAIN DEFAULT_SCAN_INTERVAL host account config_entry hd =
      match r_c with
      | Ok cs =>
          (<[DOMAIN := <[Setup.entry_id config_entry :=
                           {| Setup.coordinators := cs;
                              Setup.vehicle_manager := vehicles account |}]>
                         (default ∅ (hd !! DOMAIN))]> hd0,
           (Setup.async_setup_services :: login_calls username password ++ calls_c
              ++ (after_store host config_entry).1)%list,
           (after_store host config_entry).2)
      | Raise e =>
          (hd0,
           (Setup.async_setup_services :: login_calls username password ++ calls_c)%list,
           Raise e)
      end.
Proof.
  intros Hu Hp Hok Htruthy.
  destruct (setdefault_domain_frame DOMAIN hd) as (hd0 & Hsd & Hhd0 & Hframe).
  destruct (setup_coordinators_run account
              (scan_interval_of DEFAULT_SCAN_INTERVAL config_entry)
              (map_to_list (vehicles account)) ∅ hd0) as (calls_c & r_c & Hloop & _).
  exists hd0, calls_c, r_c.
  split; [exact Hhd0|]. split; [exact Hframe|]. split; [exact Hloop|].
  unfold Setup.async_setup_entry, Setup.on_async_setup_services.
  rewrite (act_bind_ok _ _ _ _ _ _ Hsd).
  cbv [mbind act_bind call lift getitem try_catch get put mret act_ret throw].
  rewrite Hu, Hp, (login_ok_run _ _ _ _ Hok), Htruthy.
  unfold scan_interval_of in Hloop. rewrite Hloop.
  destruct r_c as [cs|e].
  - rewrite Hhd0. unfold after_store.
    destruct (Setup.on_async_forward_entry_setups host) as [[]|e1];
      [destruct (Setup.update_listeners config_entry);
         [destruct (Setup.on_add_update_listener host) as [[]|e2]|]|];
      simpl; rewrite ?app_nil_r; reflexivity.
  - simpl. rewrite ?app_nil_r. reflexivity.
Qed.

(** Before the loop, setup raises when the entry lacks a credential, when
    the login fails and when the account has no vehicle; it has then
    constructed no coordinator and has at most created the domain. *)
Lemma setup_entry_early_exit DOMAIN DEFAULT_SCAN_INTERVAL host account config_entry
    (hd : Setup.HassData) :
  Setup.data config_entry !! CONF_USERNAME = None \/
  Setup.data config_entry !! CONF_PASSWORD = None \/
  (exists err, first_error account = Raise err) \/
  vehicles account = ∅ ->
  exists hd0 calls e,
    Setup.async_setup_entry DOMAIN DEFAULT_SCAN_INTERVAL host account config_entry hd =
      (hd0, calls, Raise e) /\
    hd0 !! DOMAIN = Some (default ∅ (hd !! DOMAIN)) /\
    (forall d, d <> DOMAIN -> hd0 !! d = hd !! d) /\
    Forall (fun c => constructs_coordinator c = false) calls.
Proof.
  intros Hearly.
  destruct (setdefault_domain_frame DOMAIN hd) as (hd0 & Hsd & Hhd0 & Hframe).
  exists hd0.
  unfold Setup.async_setup_entry, Setup.on_async_setup_services.
  rewrite (act_bind_ok _ _ _ _ _ _ Hsd).
  cbv [mbind act_bind call lift getitem try_catch get put mret act_ret throw].
  destruct (Setup.data config_entry !! CONF_USERNAME) as [username|] eqn:Hu.
  2:{ eexists _, _. split; [reflexivity|]. split; [exact Hhd0|].
      split; [exact Hframe | repeat constructor]. }
  destruct (Setup.data config_entry !! CONF_PASSWORD) as [password|] eqn:Hp.
  2:{ eexists _, _. split; [reflexivity|]. split; [exact Hhd0|].
      split; [exact Hframe | repeat constructor]. }
  destruct (login_run account username password hd0) as (calls & Hlogin & Hcalls).
  rewrite Hlogin.
  destruct (first_error account) as [[]|err] eqn:Hfirst.
  - destruct Hearly as [H | [H | [[err H] | H]]]; try discriminate.
    rewrite H, dict_truthy_empty. eexists _, _. split; [reflexivity|].
    split; [exact Hhd0|]. split; [exact Hframe|].
    simpl. rewrite app_nil_r. constructor; [reflexivity | exact Hcalls].
  - unfold Setup.on_login_error, throw, lift, raise.
    destruct (isinstance err AuthenticationError);
      [|destruct (isinstance err APIError)];
      (eexists _, _; split; [reflexivity|]; split; [exact Hhd0|];
       split; [exact Hframe|]; simpl; rewrite app_nil_r;
       constructor; [reflexivity | exact Hcalls]).
Qed.

(** The end of a setup returns only when the host's calls returned. *)
Lemma after_store_ok host config_entry b :
  (after_store host config_entry).2 = Ok b ->
  b = true /\
  Setup.on_async_forward_entry_setups host = Ok tt /\
  (Setup.update_listeners config_entry = [] ->
   Setup.on_add_update_listener host = Ok tt) /\
  (after_store host config_entry).1 =
    Setup.async_forward_entry_setups
    :: match Setup.update_listeners config_entry with
       | [] => [Setup.add_update_listener]
       | _ => []
       end.
Proof.
  unfold after_store.
  destruct (Setup.on_async_forward_entry_setups host) as [[]|e1]; [|discriminate].
  destruct (Setup.update_listeners config_entry) as [|l ls].
  - destruct (Setup.on_add_update_listener host) as [[]|e2]; [|discriminate].
    intros [= <-]. repeat split.
  - intros [= <-]. repeat split. discriminate.
Qed.

(** What a setup that returned has done. *)
Lemma setup_entry_ok_inv DOMAIN DEFAULT_SCAN_INTERVAL host account config_entry
    (hd hd' : Setup.HassData) calls b :
  Setup.async_setup_entry DOMAIN DEFAULT_SCAN_INTERVAL host account config_entry hd =
    (hd', calls, Ok b) ->
  let si := scan_interval_of DEFAULT_SCAN_INTERVAL config_entry in
  exists username password hd0 cs,
    Setup.data config_entry !! CONF_USERNAME = Some username /\
    Setup.data config_entry !! CONF_PASSWORD = Some password /\
    first_error account = Ok tt /\
    vehicles account <> ∅ /\
    hd0 !! DOMAIN = Some (default ∅ (hd !! DOMAIN)) /\
    (forall d, d <> DOMAIN -> hd0 !! d = hd !! d) /\
    Setup.setup_coordinators account si (map_to_list (vehicles account)) ∅ hd0 =
      (hd0, flat_map (coordinator_calls si) (map_to_list (vehicles account)), Ok cs) /\
    b = true /\
    hd' = <[DOMAIN := <[Setup.entry_id config_entry :=
                          {| Setup.coordinators := cs;
                             Setup.vehicle_manager := vehicles account |}]>
                        (default ∅ (hd !! DOMAIN))]> hd0 /\
    calls = (Setup.async_setup_services :: login_calls username password
               ++ flat_map (coordinator_calls si) (map_to_list (vehicles account))
               ++ Setup.async_forward_entry_setups
                  :: match Setup.update_listeners config_entry with
                     | [] => [Setup.add_update_listener]
                     | _ => []
                     end)%list /\
    Setup.on_async_forward_entry_setups host = Ok tt.
Proof.
  intros Hrun si.
  assert (Hnot : forall P : Prop,
            (Setup.data config_entry !! CONF_USERNAME = None \/
             Setup.data config_entry !! CONF_PASSWORD = None \/
             (exists err, first_error account = Raise err) \/
             vehicles account = ∅) -> P).
  { intros P Hearly.
    destruct (setup_entry_early_exit DOMAIN DEFAULT_SCAN_INTERVAL host account
                config_entry hd Hearly) as (? & ? & ? & Hraise & _).
    rewrite Hraise in Hrun. discriminate. }
  destruct (Setup.data config_entry !! CONF_USERNAME) as [username|] eqn:Hu;
    [|apply Hnot; left; reflexivity].
  destruct (Setup.data config_entry !! CONF_PASSWORD) as [password|] eqn:Hp;
    [|apply Hnot; right; left; reflexivity].
  destruct (first_error account) as [[]|err] eqn:Hfirst;
    [|apply Hnot; right; right; left; exists err; reflexivity].
  destruct (dict_truthy (vehicles account)) eqn:Htruthy;
    [|apply Hnot; right; right; right; apply dict_truthy_false; exact Htruthy].
  destruct (setup_entry_after_login DOMAIN DEFAULT_SCAN_INTERVAL host account
              config_entry hd username password Hu Hp Hfirst Htruthy)
    as (hd0 & calls_c & r_c & Hhd0 & Hframe & Hloop & Hrun').
  rewrite Hrun in Hrun'.
  destruct (setup_coordinators_run account si (map_to_list (vehicles account)) ∅ hd0)
    as (calls_c' & r_c' & Hloop' & Hspec).
  fold si in Hloop. rewrite Hloop in Hloop'. injection Hloop' as <- <-.
  destruct r_c as [cs|e]; [|discriminate].
  destruct Hspec as (-> & _).
  injection Hrun' as -> -> Hend. symmetry in Hend.
  destruct (after_store_ok _ _ _ Hend) as (-> & Hforward & _ & ->).
  exists username, password, hd0, cs.
  repeat (split; [first [reflexivity | assumption]|]).
  split.
  { intros Hempty. rewrite Hempty, dict_truthy_empty in Htruthy. discriminate. }
  repeat (split; [first [reflexivity | assumption]|]).
  exact Hforward.
Qed.

Lemma first_refreshed_functional account si id (v : Vehicle) c1 c2 :
  first_refreshed account si id v c1 -> first_refreshed account si id v c2 ->
  c1 = c2.
Proof.
  intros (n1 & m1 & d1 & Hn1 & Hm1 & Hd1 & ->) (n2 & m2 & d2 & Hn2 & Hm2 & Hd2 & ->).
  congruence.
Qed.

Lemma In_map_to_list {A : Type} (m : gmap string A) (k : string) (x : A) :
  In (k, x) (map_to_list m) <-> m !! k = Some x.
Proof. rewrite <- list_elem_of_In. apply elem_of_map_to_list. Qed.

(** X10. What [async_setup_entry] leaves in [hass.data]. No other domain
    is touched. When it returns, it returns [True], the host's forwarding
    has returned, and the entry's coordinators and manager are stored
    under the entry's id. When it raises, either [hass.data[DOMAIN]] holds
    exactly the entries it held before (the domain being created empty if
    it was missing), or the exception is the one the host raised while
    forwarding the entry or registering the listener, and the entry is
    stored all the same: nothing undoes the store. *)
Theorem setup_stores_or_leaves DOMAIN DEFAULT_SCAN_INTERVAL host account
    config_entry (hd : Setup.HassData) :
  exists hd' calls r,
    Setup.async_setup_entry DOMAIN DEFAULT_SCAN_INTERVAL host account config_entry hd =
      (hd', calls, r) /\
    (forall d, d <> DOMAIN -> hd' !! d = hd !! d) /\
    let stored :=
      exists cs,
        hd' !! DOMAIN =
        Some (<[Setup.entry_id config_entry :=
                  {| Setup.coordinators := cs;
                     Setup.vehicle_manager := vehicles account |}]>
                (default ∅ (hd !! DOMAIN))) in
    match r with
    | Ok b =>
        b = true /\ Setup.on_async_forward_entry_setups host = Ok tt /\ stored
    | Raise e =>
        hd' !! DOMAIN = Some (default ∅ (hd !! DOMAIN)) \/
        (stored /\
         (Setup.on_async_forward_entry_setups host = Raise e \/
          (Setup.on_async_forward_entry_setups host = Ok tt /\
           Setup.update_listeners config_entry = [] /\
           Setup.on_add_update_listener host = Raise e)))
    end.
Proof.
  assert (Hearly :
            (Setup.data config_entry !! CONF_USERNAME = None \/
             Setup.data config_entry !! CONF_PASSWORD = None \/
             (exists err, first_error account = Raise err) \/
             vehicles account = ∅) ->
            exists hd' calls e,
              Setup.async_setup_entry DOMAIN DEFAULT_SCAN_INTERVAL host account
                config_entry hd = (hd', calls, Raise e) /\
              (forall d, d <> DOMAIN -> hd' !! d = hd !! d) /\
              hd' !! DOMAIN = Some (default ∅ (hd !! DOMAIN))).
  { intros H.
    destruct (setup_entry_early_exit DOMAIN DEFAULT_SCAN_INTERVAL host account
                config_entry hd H) as (hd0 & calls0 & e0 & Hrun0 & Hhd0 & Hframe & _).
    exists hd0, calls0, e0. repeat split; assumption. }
  assert (Hdone : forall P : Prop,
            (exists hd' calls e,
               Setup.async_setup_entry DOMAIN DEFAULT_SCAN_INTERVAL host account
                 config_entry hd = (hd', calls, Raise e) /\
               (forall d, d <> DOMAIN -> hd' !! d = hd !! d) /\
               hd' !! DOMAIN = Some (default ∅ (hd !! DOMAIN))) ->
            (forall hd' calls e,
               Setup.async_setup_entry DOMAIN DEFAULT_SCAN_INTERVAL host account
                 config_entry hd = (hd', calls, Raise e) ->
               (forall d, d <> DOMAIN -> hd' !! d = hd !! d) ->
               hd' !! DOMAIN = Some (default ∅ (hd !! DOMAIN)) -> P) -> P).
  { intros P (hd' & calls & e & H1 & H2 & H3) HP. exact (HP _ _ _ H1 H2 H3). }
  destruct (Setup.data config_entry !! CONF_USERNAME) as [username|] eqn:Hu.
  2:{ apply (Hdone _ (Hearly (or_introl eq_refl))). intros hd' calls e H1 H2 H3.
      exists hd', calls, (Raise e). split; [exact H1|]. split; [exact H2|].
      left. exact H3. }
  destruct (Setup.data config_entry !! CONF_PASSWORD) as [password|] eqn:Hp.
  2:{ apply (Hdone _ (Hearly (or_intror (or_introl eq_refl)))).
      intros hd' calls e H1 H2 H3.
      exists hd', calls, (Raise e). split; [exact H1|]. split; [exact H2|].
      left. exact H3. }
  destruct (first_error account) as [[]|err] eqn:Hfirst.
  2:{ apply (Hdone _ (Hearly (or_intror (or_intror (or_introl
                                 (ex_intro _ err eq_refl)))))).
      intros hd' calls e H1 H2 H3.
      exists hd', calls, (Raise e). split; [exact H1|]. split; [exact H2|].
      left. exact H3. }
  destruct (dict_truthy (vehicles account)) eqn:Htruthy.
  2:{ apply dict_truthy_false in Htruthy.
      apply (Hdone _ (Hearly (or_intror (or_intror (or_intror Htruthy))))).
      intros hd' calls e H1 H2 H3.
      exists hd', calls, (Raise e). split; [exact H1|]. split; [exact H2|].
      left. exact H3. }
  destruct (setup_entry_after_login DOMAIN DEFAULT_SCAN_INTERVAL host account
              config_entry hd username password Hu Hp Hfirst Htruthy)
    as (hd0 & calls_c & r_c & Hhd0 & Hframe & _ & Hrun).
  rewrite Hrun. destruct r_c as [cs|e].
  - eexists _, _, _. split; [reflexivity|]. split.
    { intros d Hd. rewrite lookup_insert_ne by congruence. apply Hframe, Hd. }
    assert (Hstored :
              exists cs0,
                <[DOMAIN := <[Setup.entry_id config_entry :=
                                {| Setup.coordinators := cs;
                                   Setup.vehicle_manager := vehicles account |}]>
                              (default ∅ (hd !! DOMAIN))]> hd0 !! DOMAIN =
                Some (<[Setup.entry_id config_entry :=
                          {| Setup.coordinators := cs0;
                             Setup.vehicle_manager := vehicles account |}]>
                        (default ∅ (hd !! DOMAIN)))).
    { exists cs. apply lookup_insert_eq. }
    unfold after_store.
    destruct (Setup.on_async_forward_entry_setups host) as [[]|e1].
    + destruct (Setup.update_listeners config_entry) as [|l ls].
      * destruct (Setup.on_add_update_listener host) as [[]|e2]; simpl.
        -- repeat split. exact Hstored.
        -- right. split; [exact Hstored|]. right. repeat split.
      * simpl. repeat split. exact Hstored.
    + simpl. right. split; [exact Hstored|]. left. reflexivity.
  - eexists _, _, _. split; [reflexivity|]. split; [exact Hframe|].
    left. exact Hhd0.
Qed.

(** A host that fails to forward the entry. *)
Lemma setup_stores_or_leaves_witness :
  let host := {| Setup.on_async_forward_entry_setups := raise ValueError "already setup";
                 Setup.on_add_update_listener := Ok tt |} in
  exists hd' calls,
    Setup.async_setup_entry "ha_kia_hyundai" 10 host one_vehicle_account entry ∅ =
      (hd', calls, raise ValueError "already setup") /\
    is_Some (hd' !! "ha_kia_hyundai" ≫= (fun entries => entries !! "01J8")).
Proof.
  intros host.
  destruct (setup_stores_or_leaves "ha_kia_hyundai" 10 host one_vehicle_account entry ∅)
    as (hd' & calls & r & Hrun & _ & Hcases).
  exists hd', calls.
  pose proof Hrun as Hrun'. vm_compute in Hrun'. injection Hrun' as Hhd _ Hr.
  subst r. split; [exact Hrun|].
  simpl in Hcases. destruct Hcases as [Hleft | [[cs Hstored] _]].
  - exfalso. subst hd'. vm_compute in Hleft. discriminate.
  - rewrite Hstored. simpl. rewrite lookup_insert_eq. eexists; reflexivity.
Defined.

Lemma returned_setup_coordinators DOMAIN DEFAULT_SCAN_INTERVAL host account
    config_entry (hd hd' : Setup.HassData) calls b :
  Setup.async_setup_entry DOMAIN DEFAULT_SCAN_INTERVAL host account config_entry hd =
    (hd', calls, Ok b) ->
  let si := scan_interval_of DEFAULT_SCAN_INTERVAL config_entry in
  exists cs,
    hd' !! DOMAIN =
      Some (<[Setup.entry_id config_entry :=
                {| Setup.coordinators := cs;
                   Setup.vehicle_manager := vehicles account |}]>
              (default ∅ (hd !! DOMAIN))) /\
    (forall id v, vehicles account !! id = Some v ->
       exists c, first_refreshed account si id v c) /\
    (forall id c, cs !! id = Some c <->
       exists v, vehicles account !! id = Some v /\
                 first_refreshed account si id v c).
Proof.
  intros Hrun si.
  destruct (setup_entry_ok_inv _ _ _ _ _ _ _ _ _ Hrun)
    as (u & p & hd0 & cs & _ & _ & _ & _ & _ & _ & Hloop & _ & -> & _).
  fold si in Hloop.
  destruct (setup_coordinators_run account si (map_to_list (vehicles account)) ∅ hd0)
    as (calls_c & r_c & Hloop' & Hspec).
  rewrite Hloop in Hloop'. injection Hloop' as <- <-.
  destruct Hspec as (_ & Hall & Hfrom & Hdom).
  exists cs. split; [apply lookup_insert_eq|].
  assert (Hevery : forall id v, vehicles account !! id = Some v ->
            exists c, first_refreshed account si id v c).
  { intros id v Hv. apply In_map_to_list in Hv.
    rewrite Forall_forall in Hall. apply (Hall (id, v)).
    apply list_elem_of_In. exact Hv. }
  split; [exact Hevery|].
  intros id c. split.
  - intros Hc. destruct (Hfrom id c Hc) as [Hacc | (v & Hin & Hv)].
    + rewrite lookup_empty in Hacc. discriminate.
    + exists v. split; [apply In_map_to_list; exact Hin | exact Hv].
  - intros (v & Hv & Hc).
    destruct (Hdom id) as [c' Hc'].
    { right. exists v. apply In_map_to_list. exact Hv. }
    destruct (Hfrom id c' Hc') as [Hacc | (v' & Hin & Hv')].
    + rewrite lookup_empty in Hacc. discriminate.
    + apply In_map_to_list in Hin. rewrite Hv in Hin. injection Hin as <-.
      rewrite (first_refreshed_functional _ _ _ _ _ _ Hc Hv'). exact Hc'.
Qed.

(** X11. A setup that returned had both credentials in the entry, a login
    that succeeded, an account with a vehicle, for every vehicle a name, a
    model and a first refresh that returned, and a host whose forwarding
    returned. It has stored, under each vehicle id and under no other key,
    the coordinator built for that vehicle and refreshed once: its id is
    the key, its update interval is the entry's scan interval option or
    the default, and its data is set. *)
Theorem returned_setup_stores_every_vehicle DOMAIN DEFAULT_SCAN_INTERVAL host
    account config_entry (hd hd' : Setup.HassData) calls b :
  Setup.async_setup_entry DOMAIN DEFAULT_SCAN_INTERVAL host account config_entry hd =
    (hd', calls, Ok b) ->
  let si := scan_interval_of DEFAULT_SCAN_INTERVAL config_entry in
  (is_Some (Setup.data config_entry !! CONF_USERNAME) /\
   is_Some (Setup.data config_entry !! CONF_PASSWORD) /\
   first_error account = Ok tt /\
   vehicles account <> ∅ /\
   Setup.on_async_forward_entry_setups host = Ok tt /\
   forall id v, vehicles account !! id = Some v ->
     exists c, first_refreshed account si id v c) /\
  exists entries cs,
    hd' !! DOMAIN = Some entries /\
    entries !! Setup.entry_id config_entry =
      Some {| Setup.coordinators := cs;
              Setup.vehicle_manager := vehicles account |} /\
    (forall id c, cs !! id = Some c <->
       exists v, vehicles account !! id = Some v /\
                 first_refreshed account si id v c) /\
    (forall id c, cs !! id = Some c ->
       vehicle_id c = id /\ update_interval c = si /\
       Coordinator.data c <> None /\ last_update_success c = true).
Proof.
  intros Hrun si.
  destruct (returned_setup_coordinators _ _ _ _ _ _ _ _ _ Hrun)
    as (cs & Hhd' & Hevery & Hcs).
  fold si in Hevery, Hcs.
  destruct (setup_entry_ok_inv _ _ _ _ _ _ _ _ _ Hrun)
    as (u & p & hd0 & cs' & Hu & Hp & Hfirst & Hne & _ & _ & _ & _ & _ & _ & Hfwd).
  split.
  - rewrite Hu, Hp. repeat (split; [first [eexists; reflexivity | assumption]|]).
    exact Hevery.
  - eexists _, cs. split; [exact Hhd'|].
    split; [apply lookup_insert_eq|]. split; [exact Hcs|].
    intros id c Hc. apply Hcs in Hc.
    destruct Hc as (v & _ & name & model & d & _ & _ & _ & ->).
    repeat split. discriminate.
Qed.

Lemma returned_setup_stores_every_vehicle_witness :
  exists entries cs,
    (Setup.async_setup_entry "ha_kia_hyundai" 10 quiet_host one_vehicle_account
       entry ∅).1.1 !! "ha_kia_hyundai" = Some entries /\
    entries !! "01J8" =
      Some {| Setup.coordinators := cs;
              Setup.vehicle_manager := vehicles one_vehicle_account |} /\
    (forall id c, cs !! id = Some c ->
       vehicle_id c = id /\ update_interval c = 10 /\
       Coordinator.data c <> None /\ last_update_success c = true).
Proof.
  destruct (Setup.async_setup_entry "ha_kia_hyundai" 10 quiet_host one_vehicle_account
              entry ∅) as [[hd1 calls1] r] eqn:Hrun.
  assert (Hok : r = Ok true) by (vm_compute in Hrun; congruence).
  subst r. simpl.
  destruct (proj2 (returned_setup_stores_every_vehicle _ _ _ _ _ _ _ _ _ Hrun))
    as (entries & cs & Hd & He & _ & Hc).
  exists entries, cs. split; [exact Hd|]. split; [exact He | exact Hc].
Defined.

Lemma first_refresh_error_cases (e : PyExn) :
  (exn_class e = ConfigEntryAuthFailed \/ exn_class e = ConfigEntryError \/
   exn_class e = NotImplementedError -> first_refresh_error e = e) /\
  (exn_class e <> ConfigEntryAuthFailed -> exn_class e <> ConfigEntryError ->
   exn_class e <> NotImplementedError ->
   first_refresh_error e = Exn ConfigEntryNotReady (exn_str e)).
Proof.
  unfold first_refresh_error, isinstance. split.
  - intros [H | [H | H]]; rewrite H; reflexivity.
  - intros H1 H2 H3. rewrite !bool_decide_eq_false_2 by assumption. reflexivity.
Qed.

(** X12. When the login has succeeded and every vehicle has a name and a
    model, a first refresh that raises for some vehicle makes setup raise,
    and nothing is stored for the entry, also not the coordinators
    refreshed before the failing one. The exception raised comes from a
    vehicle whose refresh raised: it is that refresh's exception itself
    when that is a [ConfigEntryAuthFailed], a [ConfigEntryError] or a
    [NotImplementedError], and otherwise a [ConfigEntryNotReady] with the
    same message. *)
Theorem first_refresh_failure_aborts_setup DOMAIN DEFAULT_SCAN_INTERVAL host account
    config_entry (hd : Setup.HassData) username password id e0 :
  Setup.data config_entry !! CONF_USERNAME = Some username ->
  Setup.data config_entry !! CONF_PASSWORD = Some password ->
  first_error account = Ok tt ->
  (forall id v, vehicles account !! id = Some v ->
     is_Some (v !! "name") /\ is_Some (v !! "model")) ->
  is_Some (vehicles account !! id) ->
  update_vehicle_with_cached_state account id = Raise e0 ->
  exists hd' calls e id' e',
    Setup.async_setup_entry DOMAIN DEFAULT_SCAN_INTERVAL host account config_entry hd =
      (hd', calls, Raise e) /\
    hd' !! DOMAIN = Some (default ∅ (hd !! DOMAIN)) /\
    is_Some (vehicles account !! id') /\
    update_vehicle_with_cached_state account id' = Raise e' /\
    (exn_class e' = ConfigEntryAuthFailed \/ exn_class e' = ConfigEntryError \/
     exn_class e' = NotImplementedError -> e = e') /\
    (exn_class e' <> ConfigEntryAuthFailed -> exn_class e' <> ConfigEntryError ->
     exn_class e' <> NotImplementedError ->
     e = Exn ConfigEntryNotReady (exn_str e')).
Proof.
  intros Hu Hp Hfirst Hattrs [v Hv] Hraise.
  assert (Htruthy : dict_truthy (vehicles account) = true)
    by exact (dict_truthy_lookup _ _ _ Hv).
  destruct (setup_entry_after_login DOMAIN DEFAULT_SCAN_INTERVAL host account
              config_entry hd username password Hu Hp Hfirst Htruthy)
    as (hd0 & calls_c & r_c & Hhd0 & _ & Hloop & Hrun).
  destruct (setup_coordinators_run account
              (scan_interval_of DEFAULT_SCAN_INTERVAL config_entry)
              (map_to_list (vehicles account)) ∅ hd0)
    as (calls_c' & r_c' & Hloop' & Hspec).
  rewrite Hloop in Hloop'. injection Hloop' as <- <-.
  destruct r_c as [cs|e].
  - exfalso. destruct Hspec as (_ & Hall & _).
    rewrite Forall_forall in Hall.
    destruct (Hall (id, v)) as (c & name & model & d & _ & _ & Hd & _).
    { apply list_elem_of_In, In_map_to_list. exact Hv. }
    simpl in Hd. rewrite Hraise in Hd. discriminate.
  - destruct Hspec as (id' & v' & Hin & [[Hnone _] | (e' & He' & ->)]).
    + apply In_map_to_list in Hin.
      destruct (Hattrs id' v' Hin) as [[n Hn] [m Hm]]. destruct Hnone; congruence.
    + apply In_map_to_list in Hin.
      eexists _, _, _, id', e'. split; [exact Hrun|]. split; [exact Hhd0|].
      split; [eexists; exact Hin|]. split; [exact He'|].
      apply first_refresh_error_cases.
Qed.

Lemma first_refresh_failure_aborts_setup_witness :
  exists hd' calls e,
    Setup.async_setup_entry "ha_kia_hyundai" 10 quiet_host stalled_account entry ∅ =
      (hd', calls, Raise e) /\
    hd' !! "ha_kia_hyundai" = Some ∅ /\
    e = Exn ConfigEntryNotReady "timeout".
Proof.
  destruct (first_refresh_failure_aborts_setup "ha_kia_hyundai" 10 quiet_host
              stalled_account entry ∅ "driver@example.com" "hunter2"
              "KNDC3DLC5N5000001" (Exn APIError "timeout") eq_refl eq_refl eq_refl)
    as (hd' & calls & e & id' & e' & Hrun & Hhd & _ & He' & _ & Hnot_ready).
  - intros id v Hv. simpl in Hv.
    apply lookup_singleton_Some in Hv as [_ <-].
    split; eexists; reflexivity.
  - eexists. reflexivity.
  - reflexivity.
  - exists hd', calls, e. split; [exact Hrun|]. split; [exact Hhd|].
    injection He' as <-. apply Hnot_ready; discriminate.
Defined.

(** X13. An entry that lacks the username or the password makes setup
    raise [KeyError] before the account is contacted: the only call made
    is the registration of the services. *)
Theorem missing_credentials_raise_key_error DOMAIN DEFAULT_SCAN_INTERVAL host account
    config_entry (hd : Setup.HassData) :
  Setup.data config_entry !! CONF_USERNAME = None \/
  Setup.data config_entry !! CONF_PASSWORD = None ->
  exists hd' e,
    Setup.async_setup_entry DOMAIN DEFAULT_SCAN_INTERVAL host account config_entry hd =
      (hd', [Setup.async_setup_services], Raise e) /\
    exn_class e = KeyError /\
    hd' !! DOMAIN = Some (default ∅ (hd !! DOMAIN)).
Proof.
  intros Hmissing.
  destruct (setdefault_domain_frame DOMAIN hd) as (hd0 & Hsd & Hhd0 & _).
  exists hd0.
  unfold Setup.async_setup_entry, Setup.on_async_setup_services.
  rewrite (act_bind_ok _ _ _ _ _ _ Hsd).
  cbv [mbind act_bind call lift getitem].
  destruct (Setup.data config_entry !! CONF_USERNAME) as [username|].
  - destruct Hmissing as [Hm | Hm]; [discriminate|]. rewrite Hm.
    eexists. split; [reflexivity|]. split; [reflexivity | exact Hhd0].
  - eexists. split; [reflexivity|]. split; [reflexivity | exact Hhd0].
Qed.

Lemma missing_credentials_raise_key_error_witness :
  exists hd' e,
    Setup.async_setup_entry "ha_kia_hyundai" 10 quiet_host one_vehicle_account
      {| Setup.entry_id := "01J8";
         Setup.data := {[ CONF_USERNAME := "driver@example.com" ]};
         Setup.options := ∅;
         Setup.update_listeners := [] |} ∅ =
      (hd', [Setup.async_setup_services], Raise e) /\
    exn_class e = KeyError /\
    hd' !! "ha_kia_hyundai" = Some ∅.
Proof.
  apply (missing_credentials_raise_key_error "ha_kia_hyundai" 10).
  right. reflexivity.
Defined.

Lemma coordinator_calls_count si (items : list (string * Vehicle)) :
  length (List.filter constructs_coordinator (flat_map (coordinator_calls si) items))
  = length items.
Proof.
  induction items as [|item items IH]; [reflexivity|].
  simpl. rewrite IH. reflexivity.
Qed.

Lemma coordinator_calls_no_listener si (items : list (string * Vehicle)) :
  ~ In Setup.add_update_listener (flat_map (coordinator_calls si) items).
Proof.
  rewrite in_flat_map. intros (item & _ & [H | [H | []]]); discriminate.
Qed.

(** X14. The calls of a setup that returned: the services, the three
    calls of the login with the entry's credentials, then for every
    vehicle exactly once, in some order of the vehicles, the construction
    of its coordinator followed by its first refresh, then the forwarding
    to the platforms, and last the registration of the update listener. So
    one coordinator is constructed per vehicle, and the listener is
    registered exactly when the entry has none yet. *)
Theorem setup_call_sequence DOMAIN DEFAULT_SCAN_INTERVAL host account config_entry
    (hd hd' : Setup.HassData) calls b :
  Setup.async_setup_entry DOMAIN DEFAULT_SCAN_INTERVAL host account config_entry hd =
    (hd', calls, Ok b) ->
  let si := scan_interval_of DEFAULT_SCAN_INTERVAL config_entry in
  (exists username password items,
     Setup.data config_entry !! CONF_USERNAME = Some username /\
     Setup.data config_entry !! CONF_PASSWORD = Some password /\
     items ≡ₚ map_to_list (vehicles account) /\
     calls =
       (Setup.async_setup_services :: login_calls username password
          ++ flat_map (coordinator_calls si) items
          ++ Setup.async_forward_entry_setups
             :: match Setup.update_listeners config_entry with
                | [] => [Setup.add_update_listener]
                | _ => []
                end)%list) /\
  length (List.filter constructs_coordinator calls) = size (vehicles account) /\
  (In Setup.add_update_listener calls <-> Setup.update_listeners config_entry = []).
Proof.
  intros Hrun si.
  destruct (setup_entry_ok_inv _ _ _ _ _ _ _ _ _ Hrun)
    as (u & p & hd0 & cs & Hu & Hp & _ & _ & _ & _ & _ & _ & _ & Hcalls & _).
  fold si in Hcalls.
  split.
  { exists u, p, (map_to_list (vehicles account)).
    split; [exact Hu|]. split; [exact Hp|]. split; [reflexivity | exact Hcalls]. }
  rewrite Hcalls. split.
  - simpl. rewrite List.filter_app, length_app, coordinator_calls_count.
    rewrite length_map_to_list.
    destruct (Setup.update_listeners config_entry); simpl; lia.
  - split.
    + intros [H | H]; [discriminate|].
      apply in_app_or in H as [H | H].
      { destruct H as [H | [H | [H | []]]]; discriminate. }
      apply in_app_or in H as [H | H].
      { exfalso. exact (coordinator_calls_no_listener _ _ H). }
      destruct H as [H | H]; [discriminate|].
      destruct (Setup.update_listeners config_entry); [reflexivity | destruct H].
    + intros ->. right. apply in_or_app. right. apply in_or_app. right.
      right. left. reflexivity.
Qed.

(** An account with two vehicles. *)
Lemma setup_call_sequence_witness :
  let calls := (Setup.async_setup_entry "ha_kia_hyundai" 10 quiet_host
                  two_vehicle_account entry ∅).1.2 in
  length (List.filter constructs_coordinator calls) = 2%nat /\
  In Setup.add_update_listener calls.
Proof.
  destruct (Setup.async_setup_entry "ha_kia_hyundai" 10 quiet_host two_vehicle_account
              entry ∅) as [[hd' calls] r] eqn:Hrun.
  assert (Hok : r = Ok true).
  { pose proof Hrun as Hrun'. vm_compute in Hrun'. injection Hrun' as _ _ <-.
    reflexivity. }
  subst r. simpl.
  destruct (setup_call_sequence _ _ _ _ _ _ _ _ _ Hrun) as (_ & Hcount & Hlistener).
  split; [exact Hcount|]. apply Hlistener. reflexivity.
Defined.

(** ** Unloading an entry *)

(** The run of [async_unload_entry] on a [hass.data] that has the domain. *)
Lemma unload_entry_run DOMAIN (ok : bool) config_entry (hd : Setup.HassData) entries :
  hd !! DOMAIN = Some entries ->
  let remaining := if ok then delete (Setup.entry_id config_entry) entries else entries in
  Teardown.async_unload_entry DOMAIN (Ok ok) config_entry hd =
    (if ok then <[DOMAIN := remaining]> hd else hd,
     Teardown.async_unload_platforms
     :: (if dict_truthy remaining then [] else [Teardown.async_unload_services]),
     Ok ok).
Proof.
  intros Hd remaining. unfold Teardown.async_unload_entry.
  cbv [mbind act_bind call lift getitem get put mret act_ret].
  destruct ok; subst remaining.
  - rewrite Hd. simpl. rewrite lookup_insert_eq.
    destruct (dict_truthy _); reflexivity.
  - simpl. rewrite Hd. destruct (dict_truthy _); reflexivity.
Qed.

(** X15. Unloading after a setup that returned removes what the setup
    stored: [hass.data[DOMAIN]] holds the entries it held before the
    setup, without this entry's id, other domains are as before, and the
    services are unloaded exactly when no entry is left. *)
Theorem unload_undoes_setup DOMAIN DEFAULT_SCAN_INTERVAL host account config_entry
    (hd hd1 : Setup.HassData) calls1 b :
  Setup.async_setup_entry DOMAIN DEFAULT_SCAN_INTERVAL host account config_entry hd =
    (hd1, calls1, Ok b) ->
  let remaining := delete (Setup.entry_id config_entry) (default ∅ (hd !! DOMAIN)) in
  exists hd2 calls2,
    Teardown.async_unload_entry DOMAIN (Ok true) config_entry hd1 =
      (hd2, calls2, Ok true) /\
    hd2 !! DOMAIN = Some remaining /\
    (forall d, d <> DOMAIN -> hd2 !! d = hd !! d) /\
    (In Teardown.async_unload_services calls2 <-> remaining = ∅).
Proof.
  intros Hrun remaining.
  destruct (setup_entry_ok_inv _ _ _ _ _ _ _ _ _ Hrun)
    as (u & p & hd0 & cs & _ & _ & _ & _ & Hhd0 & Hframe & _ & _ & -> & _).
  eexists _, _. split.
  { apply (unload_entry_run DOMAIN true). apply lookup_insert_eq. }
  simpl. rewrite delete_insert_eq. fold remaining.
  split; [apply lookup_insert_eq|]. split.
  - intros d Hd. rewrite !lookup_insert_ne by congruence. apply Hframe, Hd.
  - destruct (dict_truthy remaining) eqn:Ht; split.
    + intros [H | []]. discriminate.
    + intros Hl. apply dict_truthy_false in Hl. congruence.
    + intros _. apply dict_truthy_false. exact Ht.
    + intros _. right. left. reflexivity.
Qed.

Lemma unload_undoes_setup_witness :
  exists hd2 calls2,
    Teardown.async_unload_entry "ha_kia_hyundai" (Ok true) entry
      (Setup.async_setup_entry "ha_kia_hyundai" 10 quiet_host one_vehicle_account entry ∅).1.1 =
      (hd2, calls2, Ok true) /\
    hd2 !! "ha_kia_hyundai" = Some ∅ /\
    (In Teardown.async_unload_services calls2 <-> (∅ : gmap string Setup.EntryData) = ∅).
Proof.
  destruct (Setup.async_setup_entry "ha_kia_hyundai" 10 quiet_host one_vehicle_account entry ∅)
    as [[hd1 calls1] r] eqn:Hrun.
  assert (Hok : r = Ok true) by (vm_compute in Hrun; congruence).
  subst r.
  destruct (unload_undoes_setup _ _ _ _ _ _ _ _ _ Hrun)
    as (hd2 & calls2 & Hun & Hd & _ & Hsvc).
  exists hd2, calls2. split; [exact Hun|]. split; [exact Hd | exact Hsvc].
Defined.

(** X16. An unload that the platforms refuse after a setup that returned
    changes nothing: [hass.data] is as the setup left it, the services
    stay, and the refusal is returned. *)
Theorem refused_unload_keeps_entry DOMAIN DEFAULT_SCAN_INTERVAL host account config_entry
    (hd hd1 : Setup.HassData) calls1 b :
  Setup.async_setup_entry DOMAIN DEFAULT_SCAN_INTERVAL host account config_entry hd =
    (hd1, calls1, Ok b) ->
  Teardown.async_unload_entry DOMAIN (Ok false) config_entry hd1 =
    (hd1, [Teardown.async_unload_platforms], Ok false).
Proof.
  intros Hrun.
  destruct (setup_entry_ok_inv _ _ _ _ _ _ _ _ _ Hrun)
    as (u & p & hd0 & cs & _ & _ & _ & _ & _ & _ & _ & _ & -> & _).
  rewrite (unload_entry_run DOMAIN false _ _ _ (lookup_insert_eq _ _ _)).
  simpl. erewrite dict_truthy_lookup; [reflexivity|].
  apply lookup_insert_eq.
Qed.

Lemma refused_unload_keeps_entry_witness :
  let hd1 := (Setup.async_setup_entry "ha_kia_hyundai" 10 quiet_host one_vehicle_account
                entry ∅).1.1 in
  Teardown.async_unload_entry "ha_kia_hyundai" (Ok false) entry hd1 =
    (hd1, [Teardown.async_unload_platforms], Ok false).
Proof.
  destruct (Setup.async_setup_entry "ha_kia_hyundai" 10 quiet_host one_vehicle_account entry ∅)
    as [[hd1 calls1] r] eqn:Hrun.
  assert (Hok : r = Ok true) by (vm_compute in Hrun; congruence).
  subst r. simpl.
  exact (refused_unload_keeps_entry _ _ _ _ _ _ _ _ _ Hrun).
Defined.

(** X17. Unloading is idempotent on [hass.data], since the entry is
    popped with a default: a second unload leaves the state of the first
    and makes the same calls; without the domain, an unload raises
    [KeyError] after the platforms were unloaded. *)
Theorem unload_twice DOMAIN config_entry (hd : Setup.HassData) :
  (forall entries, hd !! DOMAIN = Some entries ->
   exists hd1 calls,
     Teardown.async_unload_entry DOMAIN (Ok true) config_entry hd =
       (hd1, calls, Ok true) /\
     Teardown.async_unload_entry DOMAIN (Ok true) config_entry hd1 =
       (hd1, calls, Ok true)) /\
  (hd !! DOMAIN = None ->
   exists e,
     exn_class e = KeyError /\
     Teardown.async_unload_entry DOMAIN (Ok true) config_entry hd =
       (hd, [Teardown.async_unload_platforms], Raise e)).
Proof.
  split.
  - intros entries Hd. eexists _, _. split.
    + apply (unload_entry_run DOMAIN true _ _ _ Hd).
    + rewrite (unload_entry_run DOMAIN true _ _
                 (delete (Setup.entry_id config_entry) entries)
                 (lookup_insert_eq _ _ _)).
      simpl. rewrite delete_delete_eq, insert_insert_eq. reflexivity.
  - intros Hd. eexists. split; [|
      unfold Teardown.async_unload_entry;
      cbv [mbind act_bind call lift getitem get put mret act_ret];
      rewrite Hd; reflexivity].
    reflexivity.
Qed.

(** ** The climate platform *)

Lemma make_entities_run (cs : list VehicleCoordinator) (acc : list Climate.Thermostat) :
  ClimatePlatform.make_entities cs acc = Ok (acc ++ (thermostat_of <$> cs))%list.
Proof.
  revert acc. induction cs as [|c cs IH]; intros acc; simpl.
  - rewrite app_nil_r. reflexivity.
  - rewrite thermostat_init_run. simpl. rewrite IH, <- app_assoc. reflexivity.
Qed.

(** The run of the platform's setup on an entry that has been set up. *)
Lemma climate_platform_run DOMAIN config_entry (hd : Setup.HassData)
    entries entry_data :
  hd !! DOMAIN = Some entries ->
  entries !! Setup.entry_id config_entry = Some entry_data ->
  ClimatePlatform.async_setup_entry DOMAIN config_entry hd =
    (hd,
     match thermostat_of <$> (snd <$> map_to_list (Setup.coordinators entry_data)) with
     | [] => []
     | ts => [ClimatePlatform.async_add_entities ts]
     end,
     Ok tt).
Proof.
  intros Hd He. unfold ClimatePlatform.async_setup_entry.
  cbv [mbind act_bind call lift getitem get mret act_ret].
  rewrite Hd, He, make_entities_run. simpl.
  destruct (thermostat_of <$> _); reflexivity.
Qed.

Lemma thermostats_length (cs : gmap string VehicleCoordinator) :
  length (thermostat_of <$> (snd <$> map_to_list cs)) = size cs.
Proof. rewrite !length_fmap. apply length_map_to_list. Qed.

(** X18. For an entry that has been set up, the setup of the climate
    platform never raises and leaves [hass.data] alone. With no
    coordinator it adds nothing; otherwise it adds, in one call, one
    thermostat per coordinator, each at its initial target temperature.
    For an entry that has not been set up it raises [KeyError]. *)
Theorem climate_platform_one_thermostat_per_coordinator DOMAIN config_entry
    (hd : Setup.HassData) :
  (forall entries entry_data,
     hd !! DOMAIN = Some entries ->
     entries !! Setup.entry_id config_entry = Some entry_data ->
     let ts := thermostat_of <$> (snd <$> map_to_list (Setup.coordinators entry_data)) in
     length ts = size (Setup.coordinators entry_data) /\
     ClimatePlatform.async_setup_entry DOMAIN config_entry hd =
       (hd,
        if decide (Setup.coordinators entry_data = ∅) then []
        else [ClimatePlatform.async_add_entities ts],
        Ok tt)) /\
  (hd !! DOMAIN = None \/
   (exists entries, hd !! DOMAIN = Some entries /\
                    entries !! Setup.entry_id config_entry = None) ->
   exists e, exn_class e = KeyError /\
             ClimatePlatform.async_setup_entry DOMAIN config_entry hd = (hd, [], Raise e)).
Proof.
  split.
  - intros entries entry_data Hd He ts. split; [apply thermostats_length|].
    rewrite (climate_platform_run _ _ _ _ _ Hd He). fold ts.
    pose proof (thermostats_length (Setup.coordinators entry_data)) as Hlen.
    fold ts in Hlen.
    destruct (decide (Setup.coordinators entry_data = ∅)) as [Hempty | Hne].
    + rewrite Hempty, map_size_empty in Hlen. destruct ts; [reflexivity | discriminate].
    + destruct ts; [|reflexivity]. exfalso. apply Hne.
      apply map_size_empty_iff. symmetry. exact Hlen.
  - intros Hmissing. unfold ClimatePlatform.async_setup_entry.
    cbv [mbind act_bind call lift getitem get mret act_ret].
    destruct Hmissing as [Hd | (entries & Hd & He)].
    + rewrite Hd. eexists. split; [|reflexivity]. reflexivity.
    + rewrite Hd, He. eexists. split; [|reflexivity]. reflexivity.
Qed.

Lemma stored_coordinators_size (cs : gmap string VehicleCoordinator)
    (vs : gmap string Vehicle) :
  (forall id, is_Some (cs !! id) <-> is_Some (vs !! id)) -> size cs = size vs.
Proof.
  intros H. rewrite <- (size_dom cs), <- (size_dom vs). f_equal.
  apply set_eq. intros id. rewrite !elem_of_dom. apply H.
Qed.

(** A setup that returned has stored a coordinator under the id of every
    vehicle of the account, and under no other key. *)
Lemma setup_entry_stored DOMAIN DEFAULT_SCAN_INTERVAL host account config_entry
    (hd hd1 : Setup.HassData) calls1 b :
  Setup.async_setup_entry DOMAIN DEFAULT_SCAN_INTERVAL host account config_entry hd =
    (hd1, calls1, Ok b) ->
  exists entries cs,
    hd1 !! DOMAIN = Some entries /\
    entries !! Setup.entry_id config_entry =
      Some {| Setup.coordinators := cs; Setup.vehicle_manager := vehicles account |} /\
    size cs = size (vehicles account) /\
    vehicles account <> ∅.
Proof.
  intros Hrun.
  destruct (setup_entry_ok_inv _ _ _ _ _ _ _ _ _ Hrun)
    as (u & p & hd0 & cs & _ & _ & _ & Hne & _ & _ & Hloop & _ & -> & _).
  destruct (setup_coordinators_run account
              (scan_interval_of DEFAULT_SCAN_INTERVAL config_entry)
              (map_to_list (vehicles account)) ∅ hd0)
    as (calls_c & r_c & Hloop' & Hspec).
  rewrite Hloop in Hloop'. injection Hloop' as <- <-.
  destruct Hspec as (_ & _ & Hfrom & Hdom).
  eexists _, cs. split; [apply lookup_insert_eq|].
  split; [apply lookup_insert_eq|]. split; [|exact Hne].
  apply stored_coordinators_size. intros id. split.
  - intros [c Hc]. destruct (Hfrom id c Hc) as [Hacc | (v & Hin & _)].
    + rewrite lookup_empty in Hacc. discriminate.
    + exists v. apply In_map_to_list. exact Hin.
  - intros [v Hv]. apply Hdom. right. exists v. apply In_map_to_list. exact Hv.
Qed.

(** X19. After a setup that returned, the setup of the climate platform
    finds the entry and adds, in one call, as many thermostats as the
    account has vehicles, each with an integer target temperature. *)
Theorem climate_platform_after_setup DOMAIN DEFAULT_SCAN_INTERVAL host account
    config_entry (hd hd1 : Setup.HassData) calls1 b :
  Setup.async_setup_entry DOMAIN DEFAULT_SCAN_INTERVAL host account config_entry hd =
    (hd1, calls1, Ok b) ->
  exists ts,
    ClimatePlatform.async_setup_entry DOMAIN config_entry hd1 =
      (hd1, [ClimatePlatform.async_add_entities ts], Ok tt) /\
    length ts = size (vehicles account) /\
    Forall (fun t => exists n, Climate.target_temperature t = PyInt n) ts.
Proof.
  intros Hrun.
  destruct (setup_entry_stored _ _ _ _ _ _ _ _ _ Hrun)
    as (entries & cs & Hd & He & Hsize & Hne).
  pose proof (climate_platform_run DOMAIN config_entry hd1 _ _ Hd He) as Hplat.
  pose proof (thermostats_length cs) as Hlen.
  simpl in Hplat.
  set (ts := thermostat_of <$> (snd <$> map_to_list cs)) in *.
  exists ts. split; [|split].
  - rewrite Hplat. destruct ts as [|t ts']; [|reflexivity].
    exfalso. apply Hne. apply map_size_empty_iff. rewrite <- Hsize, <- Hlen. reflexivity.
  - rewrite Hlen. exact Hsize.
  - subst ts. apply Forall_fmap, Forall_forall. intros c _. eexists. reflexivity.
Qed.

Lemma climate_platform_after_setup_witness :
  let hd1 := (Setup.async_setup_entry "ha_kia_hyundai" 10 quiet_host one_vehicle_account
                entry ∅).1.1 in
  exists ts,
    ClimatePlatform.async_setup_entry "ha_kia_hyundai" entry hd1 =
      (hd1, [ClimatePlatform.async_add_entities ts], Ok tt) /\
    length ts = 1%nat.
Proof.
  destruct (Setup.async_setup_entry "ha_kia_hyundai" 10 quiet_host one_vehicle_account entry ∅)
    as [[hd1 calls1] r] eqn:Hrun.
  assert (Hok : r = Ok true) by (vm_compute in Hrun; congruence).
  subst r. simpl.
  destruct (climate_platform_after_setup _ _ _ _ _ _ _ _ _ Hrun) as (ts & Hplat & Hlen & _).
  exists ts. split; [exact Hplat | exact Hlen].
Defined.

(** ** The user step of the config flow *)

(** The run of the user step once the login has succeeded and found
    vehicles: the handler keeps the input, and the source of the flow and
    the configured unique ids decide the result. *)
Lemma step_user_logged_in account configured
    (self : ConfigFlow.KiaUvoConfigFlowHandler)
    (user_input : gmap string string) username password :
  user_input !! CONF_USERNAME = Some username ->
  user_input !! CONF_PASSWORD = Some password ->
  first_error account = Ok tt ->
  vehicles account <> ∅ ->
  ConfigFlow.async_step_user account configured (Some user_input) self =
    (logged_in self account user_input, [],
     Ok (if String.eqb (ConfigFlow.source self) ConfigFlow.SOURCE_REAUTH
         then ConfigFlow.async_update_reload_and_abort user_input
         else if bool_decide (account_unique_id username ∈ configured)
         then user_form "unknown"
         else ConfigFlow.async_create_entry (account_title username) user_input)).
Proof.
  intros Hu Hp Hok Hne. unfold first_error in Hok.
  assert (Htruthy : dict_truthy (vehicles account) = true).
  { destruct (dict_truthy (vehicles account)) eqn:Ht; [reflexivity|].
    apply dict_truthy_false in Ht. contradiction. }
  unfold ConfigFlow.async_step_user, ConfigFlow.try_login,
    ConfigFlow.async_step_create_entries, ConfigFlow.on_login_error,
    user_form, account_unique_id, account_title, logged_in.
  cbv [mbind act_bind res_bind call lift getitem try_catch get put throw raise
       mret act_ret] in *.
  rewrite Hu, Hp, Htruthy.
  destruct (VehicleManager account) as [[]|]; [|discriminate].
  destruct (check_and_refresh_token account) as [[]|]; [|discriminate].
  destruct (update_all_vehicles_with_cached_state account) as [[]|]; [|discriminate].
  simpl. destruct (String.eqb (ConfigFlow.source self) ConfigFlow.SOURCE_REAUTH);
    [reflexivity|].
  rewrite Htruthy. simpl. rewrite Hu.
  destruct (bool_decide _); reflexivity.
Qed.

(** The run of the user step when the login fails or finds no vehicle: the
    form comes back with an error, and the handler's data and source are
    as before. *)
Lemma step_user_rejected account configured
    (self : ConfigFlow.KiaUvoConfigFlowHandler)
    (user_input : gmap string string) username password :
  user_input !! CONF_USERNAME = Some username ->
  user_input !! CONF_PASSWORD = Some password ->
  (exists err, first_error account = Raise err) \/ vehicles account = ∅ ->
  exists self' error,
    ConfigFlow.async_step_user account configured (Some user_input) self =
      (self', [], Ok (user_form error)) /\
    ConfigFlow.data self' = ConfigFlow.data self /\
    ConfigFlow.source self' = ConfigFlow.source self.
Proof.
  intros Hu Hp Hwhy.
  destruct (first_error account) as [[]|err] eqn:Hfirst.
  - destruct Hwhy as [[err Herr] | Hnone]; [discriminate|].
    rewrite (step_user_no_vehicles _ _ _ _ _ _ Hu Hp Hfirst Hnone).
    eexists _, _. split; [reflexivity|]. split; reflexivity.
  - destruct (step_user_login_error account configured self user_input _ _ err
                Hu Hp Hfirst) as (self' & Hrun).
    exists self'. eexists. split; [exact Hrun|].
    clear Hwhy. unfold first_error in Hfirst.
    unfold ConfigFlow.async_step_user, ConfigFlow.try_login,
      ConfigFlow.on_login_error in Hrun.
    cbv [mbind act_bind res_bind call lift getitem try_catch get put
         mret act_ret] in *.
    rewrite Hu, Hp in Hrun.
    destruct (VehicleManager account) as [[]|e1];
      [destruct (check_and_refresh_token account) as [[]|e2];
         [destruct (update_all_vehicles_with_cached_state account) as [[]|e3];
            [discriminate|]|]|];
      injection Hfirst as ->;
      (destruct (isinstance err AuthenticationError);
         [|destruct (isinstance err APIError)]);
      injection Hrun as <-; split; reflexivity.
Qed.

(** X20. With both credentials in the input, the user step never raises
    and makes no recorded call. It creates an entry exactly when the login
    succeeds, the account has a vehicle, the flow is not a
    re-authentication and no entry with the account's unique id is
    configured; the entry is then titled after the username and carries
    the input. When the login fails or finds no vehicle, the handler's
    data stays as it was: the input is not kept. *)
Theorem user_step_creates_entry_exactly_when account configured
    (self : ConfigFlow.KiaUvoConfigFlowHandler)
    (user_input : gmap string string) username password :
  user_input !! CONF_USERNAME = Some username ->
  user_input !! CONF_PASSWORD = Some password ->
  exists self' r,
    ConfigFlow.async_step_user account configured (Some user_input) self =
      (self', [], Ok r) /\
    ((exists title data, r = ConfigFlow.async_create_entry title data) <->
     (first_error account = Ok tt /\ vehicles account <> ∅ /\
      ConfigFlow.source self <> ConfigFlow.SOURCE_REAUTH /\
      account_unique_id username ∉ configured)) /\
    (forall title data, r = ConfigFlow.async_create_entry title data ->
       title = account_title username /\ data = user_input) /\
    ((exists err, first_error account = Raise err) \/ vehicles account = ∅ ->
       ConfigFlow.data self' = ConfigFlow.data self).
Proof.
  intros Hu Hp.
  assert (Hcases : ((exists err, first_error account = Raise err) \/
                    vehicles account = ∅) \/
                   (first_error account = Ok tt /\ vehicles account <> ∅)).
  { destruct (first_error account) as [[]|err]; [|left; left; eexists; reflexivity].
    destruct (dict_truthy (vehicles account)) eqn:Ht.
    - right. split; [reflexivity|]. intros He.
      rewrite He, dict_truthy_empty in Ht. discriminate.
    - left. right. apply dict_truthy_false. exact Ht. }
  destruct Hcases as [Hrej | [Hok Hne]].
  - destruct (step_user_rejected account configured self user_input _ _ Hu Hp Hrej)
      as (self' & error & Hrun & Hdata & _).
    exists self', (user_form error). split; [exact Hrun|].
    split; [split|split].
    + intros (t & d & H). discriminate.
    + intros (Hok & Hne & _). destruct Hrej as [[err Herr] | Hnone]; congruence.
    + intros t d H. discriminate.
    + intros _. exact Hdata.
  - rewrite (step_user_logged_in _ configured self _ _ _ Hu Hp Hok Hne).
    eexists _, _. split; [reflexivity|].
    destruct (String.eqb (ConfigFlow.source self) ConfigFlow.SOURCE_REAUTH) eqn:Hsrc.
    + apply String.eqb_eq in Hsrc. split; [split|split].
      * intros (t & d & H). discriminate.
      * intros (_ & _ & Hs & _). contradiction.
      * intros t d H. discriminate.
      * intros [[err Herr] | Hnone]; congruence.
    + apply String.eqb_neq in Hsrc.
      destruct (bool_decide (account_unique_id username ∈ configured)) eqn:Hcfg.
      * apply bool_decide_eq_true in Hcfg. split; [split|split].
        -- intros (t & d & H). discriminate.
        -- intros (_ & _ & _ & Hn). contradiction.
        -- intros t d H. discriminate.
        -- intros [[err Herr] | Hnone]; congruence.
      * apply bool_decide_eq_false in Hcfg. split; [split|split].
        -- intros _. repeat split; assumption.
        -- intros _. eexists _, _. reflexivity.
        -- intros t d [= <- <-]. split; reflexivity.
        -- intros [[err Herr] | Hnone]; congruence.
Qed.

Lemma user_step_creates_entry_exactly_when_witness :
  exists self' r,
    ConfigFlow.async_step_user one_vehicle_account ∅ (Some credentials) new_flow =
      (self', [], Ok r) /\
    (forall title data, r = ConfigFlow.async_create_entry title data ->
       title = account_title "driver@example.com" /\ data = credentials).
Proof.
  destruct (user_step_creates_entry_exactly_when one_vehicle_account ∅ new_flow
              credentials "driver@example.com" "hunter2" eq_refl eq_refl)
    as (self' & r & Hrun & _ & Htitle & _).
  exists self', r. split; [exact Hrun | exact Htitle].
Defined.

(** X21. When an entry with the account's unique id is already
    configured and the flow is not a re-authentication, the abort raised
    by the host's check is caught by the step's own [except Exception]:
    the step does not abort, it shows the form again with the error
    [unknown], and the handler keeps the input. *)
Theorem configured_account_shows_unknown account configured
    (self : ConfigFlow.KiaUvoConfigFlowHandler)
    (user_input : gmap string string) username password :
  user_input !! CONF_USERNAME = Some username ->
  user_input !! CONF_PASSWORD = Some password ->
  first_error account = Ok tt ->
  vehicles account <> ∅ ->
  ConfigFlow.source self <> ConfigFlow.SOURCE_REAUTH ->
  account_unique_id username ∈ configured ->
  ConfigFlow.async_step_user account configured (Some user_input) self =
    (logged_in self account user_input, [], Ok (user_form "unknown")).
Proof.
  intros Hu Hp Hok Hne Hsrc Hcfg.
  rewrite (step_user_logged_in _ configured self _ _ _ Hu Hp Hok Hne).
  apply String.eqb_neq in Hsrc. rewrite Hsrc.
  rewrite bool_decide_eq_true_2 by assumption. reflexivity.
Qed.

Lemma configured_account_shows_unknown_witness :
  ConfigFlow.async_step_user one_vehicle_account {[ "kia_usa_driver@example.com" ]}
    (Some credentials) new_flow =
  (logged_in new_flow one_vehicle_account credentials, [],
   Ok (ConfigFlow.async_show_form "user" {[ "base" := "unknown" ]})).
Proof.
  apply (configured_account_shows_unknown one_vehicle_account _ new_flow credentials
           "driver@example.com" "hunter2"); try reflexivity.
  - vm_compute. discriminate.
  - discriminate.
Defined.

(** X22. A re-authentication whose login succeeds and finds a vehicle
    updates the existing entry with the input and aborts; it never creates
    an entry, whether or not the account is already configured. *)
Theorem reauth_updates_entry account configured
    (self : ConfigFlow.KiaUvoConfigFlowHandler)
    (user_input : gmap string string) username password :
  user_input !! CONF_USERNAME = Some username ->
  user_input !! CONF_PASSWORD = Some password ->
  first_error account = Ok tt ->
  vehicles account <> ∅ ->
  ConfigFlow.source self = ConfigFlow.SOURCE_REAUTH ->
  ConfigFlow.async_step_reauth account configured (Some user_input) self =
    (logged_in self account user_input, [],
     Ok (ConfigFlow.async_update_reload_and_abort user_input)).
Proof.
  intros Hu Hp Hok Hne Hsrc. unfold ConfigFlow.async_step_reauth.
  rewrite (step_user_logged_in _ configured self _ _ _ Hu Hp Hok Hne).
  apply String.eqb_eq in Hsrc. rewrite Hsrc. reflexivity.
Qed.

Lemma reauth_updates_entry_witness :
  let flow := {| ConfigFlow.data := ∅;
                 ConfigFlow.vehicle_manager := None;
                 ConfigFlow.source := "reauth" |} in
  ConfigFlow.async_step_reauth one_vehicle_account {[ "kia_usa_driver@example.com" ]}
    (Some credentials) flow =
  (logged_in flow one_vehicle_account credentials, [],
   Ok (ConfigFlow.async_update_reload_and_abort credentials)).
Proof.
  apply (reauth_updates_entry one_vehicle_account _ _ credentials
           "driver@example.com" "hunter2"); try reflexivity.
  vm_compute. discriminate.
Defined.

(** ** The scan interval option *)

Example scan_interval_rejected :
  OptionsFlow.validate_scan_interval (PyStr "0") =
    raise OtherException "value must be at least 1" /\
  OptionsFlow.validate_scan_interval (PyInt 1000) =
    raise OtherException "value must be at most 999" /\
  OptionsFlow.validate_scan_interval (PyStr "ten") =
    raise OtherException "expected int".
Proof. split; [|split]; reflexivity. Qed.

Lemma validate_scan_interval_ok v n :
  OptionsFlow.validate_scan_interval v = Ok n <-> py_int v = Ok n /\ 1 <= n <= 999.
Proof.
  unfold OptionsFlow.validate_scan_interval, OptionsFlow.Coerce_int,
    OptionsFlow.Range_1_999. cbv [mbind res_bind].
  destruct (py_int v) as [m|e].
  - destruct (m <? 1) eqn:Hlo; [|destruct (999 <? m) eqn:Hhi].
    + apply Z.ltb_lt in Hlo. split; [discriminate | intros [[= ->] ?]; lia].
    + apply Z.ltb_lt in Hhi. split; [discriminate | intros [[= ->] ?]; lia].
    + apply Z.ltb_ge in Hlo, Hhi.
      split; [intros [= ->]; split; [reflexivity | lia] | intros [[= ->] _]; reflexivity].
  - split; [|intros [? _]; discriminate].
    destruct (isinstance e ValueError || isinstance e TypeError); discriminate.
Qed.

(** X23. A value the validator of the options form accepts converts to an
    integer between 1 and 999; once it is the entry's scan interval
    option, it is the update interval of every coordinator a setup of the
    entry stores. *)
Theorem validated_scan_interval_reaches_coordinators DOMAIN DEFAULT_SCAN_INTERVAL host
    account config_entry (hd hd' : Setup.HassData) calls b v n :
  OptionsFlow.validate_scan_interval v = Ok n ->
  Setup.options config_entry !! CONF_SCAN_INTERVAL = Some n ->
  Setup.async_setup_entry DOMAIN DEFAULT_SCAN_INTERVAL host account config_entry hd =
    (hd', calls, Ok b) ->
  py_int v = Ok n /\ 1 <= n <= 999 /\
  exists entries entry_data,
    hd' !! DOMAIN = Some entries /\
    entries !! Setup.entry_id config_entry = Some entry_data /\
    forall id c, Setup.coordinators entry_data !! id = Some c ->
      update_interval c = n.
Proof.
  intros Hv Hopt Hrun.
  apply validate_scan_interval_ok in Hv as [Hint Hrange].
  split; [exact Hint|]. split; [exact Hrange|].
  destruct (setup_entry_ok_inv _ _ _ _ _ _ _ _ _ Hrun)
    as (u & p & hd0 & cs & _ & _ & _ & _ & _ & _ & Hloop & _ & -> & _).
  destruct (setup_coordinators_run account
              (scan_interval_of DEFAULT_SCAN_INTERVAL config_entry)
              (map_to_list (vehicles account)) ∅ hd0)
    as (calls_c & r_c & Hloop' & Hspec).
  rewrite Hloop in Hloop'. injection Hloop' as <- <-.
  destruct Hspec as (_ & _ & Hfrom & _).
  eexists _, _. split; [apply lookup_insert_eq|].
  split; [apply lookup_insert_eq|].
  intros id c Hc. simpl in Hc.
  destruct (Hfrom id c Hc) as [Hacc | (v' & _ & name & model & d & _ & _ & _ & ->)].
  - rewrite lookup_empty in Hacc. discriminate.
  - simpl. unfold scan_interval_of. rewrite Hopt. reflexivity.
Qed.

Lemma validated_scan_interval_reaches_coordinators_witness :
  let config_entry :=
    {| Setup.entry_id := "01J8";
       Setup.data := credentials;
       Setup.options := {[ CONF_SCAN_INTERVAL := 999 ]};
       Setup.update_listeners := ["async_update_options"] |} in
  exists entries entry_data,
    (Setup.async_setup_entry "ha_kia_hyundai" 10 quiet_host one_vehicle_account
       config_entry ∅).1.1 !! "ha_kia_hyundai" = Some entries /\
    entries !! "01J8" = Some entry_data /\
    forall id c, Setup.coordinators entry_data !! id = Some c ->
      update_interval c = 999.
Proof.
  intros config_entry.
  destruct (Setup.async_setup_entry "ha_kia_hyundai" 10 quiet_host one_vehicle_account
              config_entry ∅) as [[hd1 calls1] r] eqn:Hrun.
  assert (Hok : r = Ok true) by (vm_compute in Hrun; congruence).
  subst r. simpl.
  exact (proj2 (proj2 (validated_scan_interval_reaches_coordinators
                         "ha_kia_hyundai" 10 quiet_host one_vehicle_account config_entry
                         ∅ hd1 calls1 true (PyStr " 999 ") 999
                         eq_refl eq_refl Hrun))).
Defined.

(** ** Edge behaviour of the helpers *)

(** [int()] does not skip the separators 0x1c to 0x1f, which [strip()]
    removes. *)
Example int_keeps_separators :
  parse_int (String (ascii_of_N 28) "72") = None /\
  strip (String (ascii_of_N 28) "off") = "off" /\
  parse_int " 72 " = Some 72.
Proof. split; [|split]; reflexivity. Qed.

(** A [NotImplementedError] of the update method leaves the coordinator as
    it is; any other exception marks the update as failed. *)
Example refresh_not_implemented :
  let self := ready "KNDC3DLC5N5000001" ev6 in
  async_refresh self (raise NotImplementedError "") = self /\
  last_update_success (async_refresh self (raise APIError "timeout")) = false.
Proof. split; reflexivity. Qed.

(** Without a vehicle in the manager, the creation of the entries raises
    where it looks for the first vehicle. *)
Example create_entries_without_vehicle :
  let flow := {| ConfigFlow.data := credentials;
                 ConfigFlow.vehicle_manager := Some ∅;
                 ConfigFlow.source := "user" |} in
  ConfigFlow.async_step_create_entries ∅ flow =
    (flow, [], raise RuntimeError "coroutine raised StopIteration").
Proof. reflexivity. Qed.
